(** * OpenCTI MCP server: a shallow embedding of [opencti_mcp_server_v7.py]

    The server is a set of query tools over a remote threat-intelligence
    platform.  Every tool is a short composition of calls to the platform
    client ([read] and [list] on a sub-client) followed by a reshaping of the
    JSON-like records that come back.

    The embedding keeps the dynamic typing of the source: records are values
    of [pyval], the operations the source applies to them ([.get], [x["k"]],
    [or], [not], [", ".join], [str], [sort], slicing) are functions that may
    raise, and the tools run in a small monad that threads the exception and
    records each call made to the platform client. *)

From Stdlib Require Import ZArith String List DecimalString Permutation.
From stdpp Require Import gmap strings list sorting.

Set Warnings "-register-all".

(** ** Values *)

(** JSON-like Python values.  Dictionaries have string keys, as every record
    decoded from the platform's responses has.  Floating point numbers do not
    occur in the fields the tools touch and are left out. *)
Inductive pyval :=
| VNone
| VBool (b : bool)
| VInt (n : Z)
| VStr (s : string)
| VList (l : list pyval)
| VDict (d : gmap string pyval).

(** ** Exceptions and results *)

Inductive exn :=
| RuntimeError (msg : string)
| TypeError
| AttributeError
| KeyError (key : string)
| UpstreamError (msg : string).

Inductive result (A : Type) :=
| Ok (x : A)
| Raise (e : exn).
Arguments Ok {A} x.
Arguments Raise {A} e.

#[global] Instance result_ret : MRet result := λ A x, Ok x.
#[global] Instance result_bind : MBind result :=
  λ A B f m, match m with Ok x => f x | Raise e => Raise e end.
#[global] Instance result_fmap : FMap result :=
  λ A B f m, match m with Ok x => Ok (f x) | Raise e => Raise e end.

(** ** Python primitives used by the source *)

(** Truth value of an object ([bool(v)], as tested by [if v], [not v],
    [v or w]). *)
Definition truthy (v : pyval) : bool :=
  match v with
  | VNone => false
  | VBool b => b
  | VInt n => negb (n =? 0)%Z
  | VStr s => negb (String.eqb s "")
  | VList l => match l with [] => false | _ :: _ => true end
  | VDict d => match map_to_list d with [] => false | _ :: _ => true end
  end.

(** [a or b] *)
Definition py_or (a b : pyval) : pyval := if truthy a then a else b.

(** [v is None] *)
Definition is_none (v : pyval) : bool :=
  match v with VNone => true | _ => false end.

(** [v.get(k, dflt)]: only dictionaries have the method. *)
Definition py_get (v : pyval) (k : string) (dflt : pyval) : result pyval :=
  match v with
  | VDict d => Ok (default dflt (d !! k))
  | _ => Raise AttributeError
  end.

(** [v[k]] for a string key [k]: [KeyError] on a dictionary without the key,
    [TypeError] on a value that is not subscriptable by a string. *)
Definition py_getitem (v : pyval) (k : string) : result pyval :=
  match v with
  | VDict d => match d !! k with Some x => Ok x | None => Raise (KeyError k) end
  | _ => Raise TypeError
  end.

(** [sep.join(xs)]: every element has to be a string. *)
Definition as_str (v : pyval) : result string :=
  match v with VStr s => Ok s | _ => Raise TypeError end.

Definition py_join (sep : string) (xs : list pyval) : result string :=
  String.concat sep <$> mapM as_str xs.

(** [set(xs)] for a list of identifiers.  The platform's identifiers are
    strings; a list or a dictionary in their place is unhashable and raises
    [TypeError], and numbers as set members are not modelled. *)
Definition py_set (xs : list pyval) : result (gset string) :=
  list_to_set <$> mapM as_str xs.

(** [xs[:n]] for an integer [n]: the first [n] elements when [n] is not
    negative, all but the last [-n] elements when it is. *)
Definition py_slice_to {A} (n : Z) (xs : list A) : list A :=
  if (0 <=? n)%Z then take (Z.to_nat n) xs
  else take (length xs - Z.to_nat (- n)) xs.

(** [a < b] as [list.sort] applies it to two keys: strings compare
    lexicographically by code point (which is the byte order of their UTF-8
    encoding), integers and booleans numerically; [None], dictionaries and
    operands of different kinds raise [TypeError].  Lists, which Python orders
    lexicographically, never occur as a publication date and are treated like
    the other containers. *)
Definition as_num (v : pyval) : option Z :=
  match v with
  | VInt n => Some n
  | VBool b => Some (if b then 1 else 0)%Z
  | _ => None
  end.

Definition py_lt (a b : pyval) : result bool :=
  match a, b with
  | VStr s, VStr t => Ok (String.ltb s t)
  | _, _ =>
      match as_num a, as_num b with
      | Some m, Some n => Ok (m <? n)%Z
      | _, _ => Raise TypeError
      end
  end.

(** *** Stable sorting with a comparison that may raise *)

Section Sorting.
Context {A : Type} (lt : A → A → result bool).

(** Insertion of [x], which stood before every element of the sorted list
    [l], keeping it in front of the elements that are not smaller. *)
Fixpoint insert_asc (x : A) (l : list A) : result (list A) :=
  match l with
  | [] => Ok [x]
  | y :: l' =>
      b ← lt y x;
      if b : bool then (y ::.) <$> insert_asc x l' else Ok (x :: y :: l')
  end.

Fixpoint sort_asc (l : list A) : result (list A) :=
  match l with
  | [] => Ok []
  | x :: l' => s ← sort_asc l'; insert_asc x s
  end.

(** [l.sort(reverse=True)]: the list is reversed, sorted in ascending order
    and reversed again, so that equal elements keep their order. *)
Definition sort_desc (l : list A) : result (list A) :=
  reverse <$> sort_asc (reverse l).
End Sorting.

(** [l.sort(key=key, reverse=True)]: the keys are computed first, one per
    element and in order; the elements are then ordered by their keys. *)
Definition py_sort_key_reverse (key : pyval → result pyval) (l : list pyval)
  : result (list pyval) :=
  ks ← mapM key l;
  s ← sort_desc (λ a b : pyval * pyval, py_lt a.1 b.1) (zip ks l);
  Ok (s.*2).

(** ** The platform client *)

(** The two operations of a sub-client ([client.malware], [client.report],
    [client.stix_core_relationship], ...) that the server uses, each taking
    keyword arguments: [read] returns one record or [None], [list] returns a
    collection.  Either may raise; the server catches nothing. *)
Record OpenCTIApiClient := {
  client_read : string → gmap string pyval → result pyval;
  client_list : string → gmap string pyval → result (list pyval);
}.

Inductive method := Read | ListAll.

(** One call made to the client: the sub-client, the method and the keyword
    arguments. *)
Record call := Call {
  sub_client : string;
  meth : method;
  kwargs : gmap string pyval;
}.

(** ** The monad of the tools: the calls made so far and the outcome *)

Definition M (A : Type) : Type := list call * result A.

#[global] Instance M_ret : MRet M := λ A x, ([], Ok x).
#[global] Instance M_bind : MBind M :=
  λ A B f m,
    match m.2 with
    | Ok x => (m.1 ++ (f x).1, (f x).2)
    | Raise e => (m.1, Raise e)
    end.

#[global] Instance M_fmap : FMap M := λ A B f m, (m.1, f <$> m.2).

Definition lift {A} (r : result A) : M A := ([], r).
Definition trace {A} (m : M A) : list call := m.1.
Definition outcome {A} (m : M A) : result A := m.2.

(** The calls that traverse relationships. *)
Definition is_traversal (c : call) : bool :=
  String.eqb (sub_client c) "stix_core_relationship".

(** ** The server *)

(** [_create_opencti_client], over the process environment and the
    constructor of the client class. *)
Section ClientAccessor.
Context {Client : Type} (new_client : string → string → Client).

Definition token_error : exn :=
  RuntimeError
    "OPENCTI_TOKEN environment variable must be set to authenticate with OpenCTI".

(** [not v] for the result of [os.environ.get(name)] *)
Definition env_falsy (v : option string) : bool :=
  match v with None => true | Some s => String.eqb s "" end.

Definition _create_opencti_client (environ : gmap string string) : result Client :=
  let api_url := default "http://localhost:8080" (environ !! "OPENCTI_URL") in
  let api_token := environ !! "OPENCTI_TOKEN" in
  if env_falsy api_token then Raise token_error
  else Ok (new_client api_url (default "" api_token)).
End ClientAccessor.

Section Server.
(** [container_repr] is Python's [repr] of a list or dictionary, which [str]
    returns for them; [set_iter] is the order in which a [for] loop visits
    the members of a set, which depends on the hashes of the process;
    [_cti_client] is the module's client handle. *)
Context (container_repr : pyval → string).
Context (set_iter : gset string → list string).
Context (_cti_client : OpenCTIApiClient).

(** [str(v)] *)
Definition py_str (v : pyval) : string :=
  match v with
  | VNone => "None"
  | VBool b => if b then "True" else "False"
  | VInt n => NilZero.string_of_int (Z.to_int n)
  | VStr s => s
  | VList _ | VDict _ => container_repr v
  end.

(** [_cti_client.<sub>.read(...)] and [_cti_client.<sub>.list(...)] *)
Definition read (sub : string) (kw : gmap string pyval) : M pyval :=
  ([Call sub Read kw], client_read _cti_client sub kw).

Definition list_all (sub : string) (kw : gmap string pyval) : M (list pyval) :=
  ([Call sub ListAll kw], client_list _cti_client sub kw).

Definition _format_aliases (alias_list : pyval) : result string :=
  if negb (truthy alias_list) then Ok ""
  else match alias_list with
       | VList xs => py_join ", " xs
       | _ => Ok (py_str alias_list)
       end.

Definition _format_entity_with_aliases (entity : pyval) : result pyval :=
  stix_id ← py_get entity "stix_id" (VStr "");
  name ← py_get entity "name" (VStr "");
  a ← py_get entity "aliases" VNone;
  aliases ← _format_aliases a;
  d ← py_get entity "description" VNone;
  Ok (VDict {[ "stix_id" := stix_id; "name" := name;
               "aliases" := VStr aliases;
               "description" := py_or d (VStr "") ]}).

Definition _format_relationship_target (relationship : pyval) : result pyval :=
  to_obj ← py_get relationship "to" (VDict ∅);
  stix_id ← py_get to_obj "stix_id" (VStr "");
  name ← py_get to_obj "name" (VStr "");
  Ok (VDict {[ "stix_id" := stix_id; "name" := name ]}).

(** The filter structure of an exact match on the name. *)
Definition name_filters (entity_name : string) : pyval :=
  VDict {[ "mode" := VStr "and";
           "filters" :=
             VList [VDict {[ "key" := VStr "name";
                             "values" := VList [VStr entity_name] ]}];
           "filterGroups" := VList [] ]}.

Definition _find_entity_by_name (entity_type entity_name : string) : M pyval :=
  read entity_type {[ "filters" := name_filters entity_name ]}.

Definition _get_related_entities (from_entity_id : pyval) (to_types : list string)
  : M (list pyval) :=
  relations ← list_all "stix_core_relationship"
                {[ "fromId" := from_entity_id; "toTypes" := VList (VStr <$> to_types) ]};
  lift (mapM _format_relationship_target relations).

(** The body of the loop of [_get_reverse_related_entities]. *)
Definition format_relationship_source (rel : pyval) : result pyval :=
  from_obj ← py_get rel "from" (VDict ∅);
  stix_id ← py_get from_obj "stix_id" (VStr "");
  name ← py_get from_obj "name" (VStr "");
  Ok (VDict {[ "stix_id" := stix_id; "name" := name ]}).

Definition _get_reverse_related_entities (to_entity_id : pyval) (from_types : list string)
  : M (list pyval) :=
  relations ← list_all "stix_core_relationship"
                {[ "toId" := to_entity_id; "fromTypes" := VList (VStr <$> from_types) ]};
  lift (mapM format_relationship_source relations).

(** The body that the forward traversal tools share, each with its own
    sub-client and target type: look the entity up by name, return the
    empty list when there is none, otherwise traverse from its internal
    identifier. *)
Definition related_of (entity_type entity_name : string) (to_types : list string)
  : M (list pyval) :=
  entity ← _find_entity_by_name entity_type entity_name;
  if is_none entity then mret []
  else
    id ← lift (py_getitem entity "id");
    _get_related_entities id to_types.

Definition get_malwares_of_intrusion_set (intrusion_set_name : string) :=
  related_of "intrusion_set" intrusion_set_name ["Malware"].
Definition get_attack_patterns_of_intrusion_set (intrusion_set_name : string) :=
  related_of "intrusion_set" intrusion_set_name ["Attack-Pattern"].
Definition get_vulnerabilities_of_malware (malware_name : string) :=
  related_of "malware" malware_name ["Vulnerability"].
Definition get_tools_used_by_intrusion_set (intrusion_set_name : string) :=
  related_of "intrusion_set" intrusion_set_name ["Tool"].
Definition get_malwares_of_report (report_title : string) :=
  related_of "report" report_title ["Malware"].
Definition get_intrusion_sets_of_report (report_title : string) :=
  related_of "report" report_title ["Intrusion-Set"].
Definition get_ttps_of_threat_actor (threat_actor_name : string) :=
  related_of "threat_actor" threat_actor_name ["Attack-Pattern"].
Definition get_ttps_of_intrusion_set (intrusion_set_name : string) :=
  get_attack_patterns_of_intrusion_set intrusion_set_name.
Definition get_malwares_used_by_threat_actor (threat_actor_name : string) :=
  related_of "threat_actor" threat_actor_name ["Malware"].
Definition get_campaigns_by_threat_actor (threat_actor_name : string) :=
  related_of "threat_actor" threat_actor_name ["Campaign"].
Definition get_vulnerabilities_exploited_by_threat_actor (threat_actor_name : string) :=
  related_of "threat_actor" threat_actor_name ["Vulnerability"].

(** The forward traversal tools, each with the sub-client of its lookup. *)
Definition forward_tools : list (string * (string → M (list pyval))) :=
  [ ("intrusion_set", get_malwares_of_intrusion_set);
    ("intrusion_set", get_attack_patterns_of_intrusion_set);
    ("malware", get_vulnerabilities_of_malware);
    ("intrusion_set", get_tools_used_by_intrusion_set);
    ("report", get_malwares_of_report);
    ("report", get_intrusion_sets_of_report);
    ("threat_actor", get_ttps_of_threat_actor);
    ("intrusion_set", get_ttps_of_intrusion_set);
    ("threat_actor", get_malwares_used_by_threat_actor);
    ("threat_actor", get_campaigns_by_threat_actor);
    ("threat_actor", get_vulnerabilities_exploited_by_threat_actor) ].

(** The labels of a report as one string. *)
Definition labels_str_of (labels : pyval) : result string :=
  match labels with
  | VList xs => py_join ", " xs
  | _ => Ok (py_str labels)
  end.

(** The body of the loop that formats a report, as
    [get_latest_reports_by_sector], [get_latest_reports] and
    [get_latest_reports_mentioning_threat_actor] each spell it out. *)
Definition format_report (report : pyval) : result pyval :=
  p ← py_get report "published" VNone;
  let published := py_or p (VStr "") in
  l ← py_get report "labels" VNone;
  let labels := py_or l (VList []) in
  labels_str ← labels_str_of labels;
  stix_id ← py_get report "stix_id" (VStr "");
  name ← py_get report "name" (VStr "");
  d ← py_get report "description" VNone;
  Ok (VDict {[ "stix_id" := stix_id; "name" := name;
               "published" := published; "labels" := VStr labels_str;
               "description" := py_or d (VStr "") ]}).

(** The body of the loop of [search_reports], which looks the markings of
    the report up before it overwrites them with the labels. *)
Definition format_search_hit (report : pyval) : result pyval :=
  p ← py_get report "published" VNone;
  let published := py_or p (VStr "") in
  _ ← py_get report "objectMarking" (VList []);
  l ← py_get report "labels" VNone;
  let labels := py_or l (VList []) in
  labels_str ← labels_str_of labels;
  stix_id ← py_get report "stix_id" (VStr "");
  name ← py_get report "name" (VStr "");
  d ← py_get report "description" VNone;
  Ok (VDict {[ "stix_id" := stix_id; "name" := name;
               "published" := published; "labels" := VStr labels_str;
               "description" := py_or d (VStr "") ]}).

Definition search_reports (search_term : string) : M (list pyval) :=
  reports ← list_all "report" {[ "search" := VStr search_term ]};
  lift (mapM format_search_hit reports).

Definition get_latest_reports_by_sector (sector_name : string) (limit : Z)
  : M (list pyval) :=
  reports ← list_all "report"
              {[ "search" := VStr sector_name; "orderBy" := VStr "published";
                 "orderMode" := VStr "desc"; "first" := VInt limit ]};
  lift (mapM format_report reports).

Definition get_latest_reports (limit : Z) : M (list pyval) :=
  reports ← list_all "report"
              {[ "orderBy" := VStr "published"; "orderMode" := VStr "desc";
                 "first" := VInt limit ]};
  lift (mapM format_report reports).

Definition get_report_details (report_title : string) : M pyval :=
  report ← _find_entity_by_name "report" report_title;
  if is_none report then
    mret (VDict {[ "stix_id" := VStr ""; "name" := VStr ""; "published" := VStr "";
                   "labels" := VStr ""; "description" := VStr "" ]})
  else
    l ← lift (py_get report "labels" VNone);
    let labels := py_or l (VList []) in
    labels_str ← lift (labels_str_of labels);
    stix_id ← lift (py_get report "stix_id" (VStr ""));
    name ← lift (py_get report "name" (VStr ""));
    published ← lift (py_get report "published" (VStr ""));
    d ← lift (py_get report "description" VNone);
    mret (VDict {[ "stix_id" := stix_id; "name" := name;
                   "published" := published; "labels" := VStr labels_str;
                   "description" := py_or d (VStr "") ]}).

(** The last statement of the two sector tools:
    [_get_reverse_related_entities(sector["id"], [from_type])[:limit]]. *)
Definition sector_traversal (from_type : string) (limit : Z) (sector : pyval)
  : M (list pyval) :=
  id ← lift (py_getitem sector "id");
  py_slice_to limit <$> _get_reverse_related_entities id [from_type].

(** The exact-name lookup of the sector and the search it falls back on. *)
Definition sector_read_call (sector_name : string) : call :=
  Call "identity" Read {[ "filters" := name_filters sector_name ]}.
Definition sector_search_call (sector_name : string) : call :=
  Call "identity" ListAll {[ "search" := VStr sector_name; "first" := VInt 1 ]}.

(** The two sector tools differ in the source type of the traversal only. *)
Definition targeting_sector (from_type sector_name : string) (limit : Z)
  : M (list pyval) :=
  sector ← read "identity" {[ "filters" := name_filters sector_name ]};
  if is_none sector then
    sectors ← list_all "identity" {[ "search" := VStr sector_name; "first" := VInt 1 ]};
    match sectors with
    | [] => mret []
    | sector :: _ => sector_traversal from_type limit sector
    end
  else sector_traversal from_type limit sector.

Definition get_threat_actors_targeting_sector (sector_name : string) (limit : Z) :=
  targeting_sector "Threat-Actor" sector_name limit.
Definition get_intrusion_sets_targeting_sector (sector_name : string) (limit : Z) :=
  targeting_sector "Intrusion-Set" sector_name limit.

(** The sector tools, each with the source type of its traversal. *)
Definition sector_tools : list (string * (string → Z → M (list pyval))) :=
  [ ("Threat-Actor", get_threat_actors_targeting_sector);
    ("Intrusion-Set", get_intrusion_sets_targeting_sector) ].

(** The identifier that one relationship contributes to [report_ids]: that
    of its endpoint on the given side, when it has a truthy one. *)
Definition endpoint_id (side : string) (rel : pyval) : result (list pyval) :=
  obj ← py_get rel side (VDict ∅);
  i ← py_get obj "id" VNone;
  if truthy i then (x ← py_getitem obj "id"; Ok [x]) else Ok [].

Definition collect_ids (side : string) (rels : list pyval) : result (list pyval) :=
  (λ xss, mjoin xss) <$> mapM (endpoint_id side) rels.

(** The key of the sort: [r.get("published") or ""]. *)
Definition published_key (r : pyval) : result pyval :=
  p ← py_get r "published" VNone;
  Ok (py_or p (VStr "")).

Definition get_latest_reports_mentioning_threat_actor
    (threat_actor_name : string) (limit : Z) : M (list pyval) :=
  threat_actor ← _find_entity_by_name "threat_actor" threat_actor_name;
  reports ←
    (if is_none threat_actor then
       list_all "report"
         {[ "search" := VStr threat_actor_name; "orderBy" := VStr "published";
            "orderMode" := VStr "desc"; "first" := VInt limit ]}
     else
       from_id ← lift (py_getitem threat_actor "id");
       relations ← list_all "stix_core_relationship"
                     {[ "fromId" := from_id; "toTypes" := VList [VStr "Report"] ]};
       to_id ← lift (py_getitem threat_actor "id");
       reverse_relations ← list_all "stix_core_relationship"
                             {[ "toId" := to_id; "fromTypes" := VList [VStr "Report"] ]};
       forward_ids ← lift (collect_ids "to" relations);
       reverse_ids ← lift (collect_ids "from" reverse_relations);
       let report_ids := forward_ids ++ reverse_ids in
       ids ← lift (py_set report_ids);
       records ← mapM (λ report_id, read "report" {[ "id" := VStr report_id ]})
                   (set_iter ids);
       let reports := filter (λ r, truthy r = true) records in
       sorted ← lift (py_sort_key_reverse published_key reports);
       mret (py_slice_to limit sorted));
  lift (mapM format_report reports).
End Server.

(** ** The records of the data model *)

Definition is_str (v : pyval) : bool :=
  match v with VStr _ => true | _ => false end.

(** The string held by a value, the empty string for any other value. *)
Definition str_of (v : pyval) : string :=
  match v with VStr s => s | _ => "" end.

Definition is_list (v : pyval) : bool :=
  match v with VList _ => true | _ => false end.

(** The fields of a record. *)
Definition fields (v : pyval) : gmap string pyval :=
  match v with VDict d => d | _ => ∅ end.

(** A relationship record is a dictionary whose endpoint on the given side,
    when it has one, is a dictionary. *)
Definition rel_ok (side : string) (rel : pyval) : bool :=
  match rel with
  | VDict r => match r !! side with
               | None | Some (VDict _) => true
               | Some _ => false
               end
  | _ => false
  end.

(** The endpoint of a relationship on the given side; no field at all when
    the relationship has no such endpoint. *)
Definition endpoint (side : string) (rel : pyval) : gmap string pyval :=
  fields (default (VDict ∅) (fields rel !! side)).

(** The two-field projection of an endpoint. *)
Definition endpoint_record (e : gmap string pyval) : pyval :=
  VDict {[ "stix_id" := default (VStr "") (e !! "stix_id");
           "name" := default (VStr "") (e !! "name") ]}.

(** The labels of a report can be formatted: a list of labels holds strings
    only. *)
Definition labels_ok (labels : pyval) : bool :=
  match labels with VList xs => forallb is_str xs | _ => true end.

(** A report record is a dictionary whose labels can be formatted. *)
Definition report_ok (r : pyval) : bool :=
  match r with
  | VDict d => labels_ok (default VNone (d !! "labels"))
  | _ => false
  end.

(** The labels of a report as one string: nothing for missing or empty
    labels, the labels joined by ", " for a list, the string representation
    for any other value. *)
Definition labels_text (container_repr : pyval → string) (labels : pyval) : string :=
  if truthy labels then
    match labels with
    | VList xs => String.concat ", " (str_of <$> xs)
    | _ => py_str container_repr labels
    end
  else "".

(** The publication date of a report as the report tools present it. *)
Definition published_or_empty (r : pyval) : pyval :=
  py_or (default VNone (fields r !! "published")) (VStr "").

(** The five-field row of a report, as the report lists present it. *)
Definition report_row (container_repr : pyval → string) (r : pyval) : pyval :=
  VDict {[ "stix_id" := default (VStr "") (fields r !! "stix_id");
           "name" := default (VStr "") (fields r !! "name");
           "published" := published_or_empty r;
           "labels" := VStr (labels_text container_repr (default VNone (fields r !! "labels")));
           "description" := py_or (default VNone (fields r !! "description")) (VStr "") ]}.

(** The search of the reports that
    [get_latest_reports_mentioning_threat_actor] falls back on. *)
Definition report_search_kwargs (threat_actor_name : string) (limit : Z)
  : gmap string pyval :=
  {[ "search" := VStr threat_actor_name; "orderBy" := VStr "published";
     "orderMode" := VStr "desc"; "first" := VInt limit ]}.

(** The internal identifier of an endpoint, [None] when it has none. *)
Definition endpoint_internal_id (side : string) (rel : pyval) : pyval :=
  default VNone (endpoint side rel !! "id").

(** A relationship record whose endpoint has no identifier, a falsy one, or
    a string. *)
Definition rel_id_ok (side : string) (rel : pyval) : bool :=
  rel_ok side rel
  && (negb (truthy (endpoint_internal_id side rel))
      || is_str (endpoint_internal_id side rel)).

(** The identifiers that the relationships contribute, in their order and
    with their repetitions. *)
Definition endpoint_ids (side : string) (rels : list pyval) : list string :=
  rels ≫= λ rel,
    if truthy (endpoint_internal_id side rel)
    then [str_of (endpoint_internal_id side rel)]
    else [].

(** The publication date by which the reports are ordered: the empty string
    for a report that has none. *)
Definition pubdate (r : pyval) : string := str_of (published_or_empty r).

(** A report record whose publication date is missing, null or a string. *)
Definition dated_ok (r : pyval) : bool :=
  match r with
  | VDict _ => is_str (published_or_empty r)
  | _ => false
  end.

(** The re-fetch of a report by its identifier. *)
Definition fetch_report (_cti_client : OpenCTIApiClient) (report_id : string)
  : result pyval :=
  client_read _cti_client "report" {[ "id" := VStr report_id ]}.

Definition fetched (_cti_client : OpenCTIApiClient) (report_id : string) : pyval :=
  match fetch_report _cti_client report_id with
  | Ok r => r
  | Raise _ => VNone
  end.

(** The re-fetch returns, and what it returns is nothing or a well-formed
    report. *)
Definition fetch_ok (_cti_client : OpenCTIApiClient) (report_id : string) : bool :=
  match fetch_report _cti_client report_id with
  | Ok r => negb (truthy r) || (report_ok r && dated_ok r)
  | Raise _ => false
  end.

(** The descending order of the publication dates. *)
Definition newer_first (a b : pyval) : Prop :=
  String.leb (pubdate b) (pubdate a) = true.

(** The situation in which [get_latest_reports_mentioning_threat_actor]
    gathers the reports by traversal: the threat actor is found by its exact
    name, the client lists its relationships to and from reports, and every
    report that they name can be re-fetched. *)
Record resolved_actor (_cti_client : OpenCTIApiClient) (name : string)
    (forward backward : list pyval) : Prop := {
  actor_found : ∃ actor id,
    client_read _cti_client "threat_actor" {[ "filters" := name_filters name ]} = Ok actor
    ∧ is_none actor = false
    ∧ py_getitem actor "id" = Ok id
    ∧ client_list _cti_client "stix_core_relationship"
        {[ "fromId" := id; "toTypes" := VList [VStr "Report"] ]} = Ok forward
    ∧ client_list _cti_client "stix_core_relationship"
        {[ "toId" := id; "fromTypes" := VList [VStr "Report"] ]} = Ok backward;
  forward_ok : forallb (rel_id_ok "to") forward = true;
  backward_ok : forallb (rel_id_ok "from") backward = true;
  fetches_ok :
    forallb (fetch_ok _cti_client)
      (endpoint_ids "to" forward ++ endpoint_ids "from" backward) = true;
}.

(** The set A of the report identifiers reached in the forward direction and
    the set B of those reached in the reverse direction. *)
Definition forward_report_ids (forward : list pyval) : gset string :=
  list_to_set (endpoint_ids "to" forward).
Definition backward_report_ids (backward : list pyval) : gset string :=
  list_to_set (endpoint_ids "from" backward).

(** The publication date that a returned row shows. *)
Definition row_published (row : pyval) : string :=
  str_of (default VNone (fields row !! "published")).

(** ** Example data, used to run the tools on concrete inputs *)

Definition ex_report (stix_id name : string) (published : pyval) : pyval :=
  VDict {[ "stix_id" := VStr stix_id; "name" := VStr name;
           "published" := published; "labels" := VList [VStr "apt"];
           "description" := VStr "text" ]}.

Definition ex_endpoint (id stix_id name : string) : pyval :=
  VDict {[ "id" := VStr id; "stix_id" := VStr stix_id; "name" := VStr name ]}.

Definition ex_rel (side : string) (endpoint : pyval) : pyval :=
  VDict {[ side := endpoint ]}.

Definition kw_str (kw : gmap string pyval) (k : string) : string :=
  str_of (default VNone (kw !! k)).

(** The name that a [read] by exact name asks for. *)
Definition kw_name (kw : gmap string pyval) : string :=
  match kw !! "filters" with
  | Some (VDict f) =>
      match f !! "filters" with
      | Some (VList [VDict g]) =>
          match g !! "values" with
          | Some (VList [VStr n]) => n
          | _ => ""
          end
      | _ => ""
      end
  | _ => ""
  end.

Definition ex_r1 : pyval := ex_report "report--1" "One" (VStr "2024-11-01").
Definition ex_r2 : pyval := ex_report "report--2" "Two" (VStr "2024-12-01").
Definition ex_r3 : pyval := ex_report "report--3" "Three" VNone.

(** A platform that knows the threat actors APT28 (internal id 123) and
    APT29 (internal id 124), the intrusion set APT28 (internal id 456) with
    two malwares, the sector Financial (internal id 77) targeted by three
    threat actors, and three reports.  Report r2 is reachable from APT28 in
    both directions; report r3 has a null publication date; the relationships
    of APT29 name a report r4 that the platform does not return. *)
Definition ex_read (sub : string) (kw : gmap string pyval) : result pyval :=
  match kw !! "id" with
  | Some id =>
      if String.eqb sub "report" then
        if String.eqb (str_of id) "r1" then Ok ex_r1
        else if String.eqb (str_of id) "r2" then Ok ex_r2
        else if String.eqb (str_of id) "r3" then Ok ex_r3
        else Ok VNone
      else Ok VNone
  | None =>
      let n := kw_name kw in
      if String.eqb sub "threat_actor" && String.eqb n "APT28"
      then Ok (VDict {[ "id" := VStr "123"; "name" := VStr "APT28" ]})
      else if String.eqb sub "threat_actor" && String.eqb n "APT29"
      then Ok (VDict {[ "id" := VStr "124"; "name" := VStr "APT29" ]})
      else if String.eqb sub "intrusion_set" && String.eqb n "APT28"
      then Ok (VDict {[ "id" := VStr "456"; "name" := VStr "APT28" ]})
      else if String.eqb sub "identity" && String.eqb n "Financial"
      then Ok (VDict {[ "id" := VStr "77"; "name" := VStr "Financial" ]})
      else if String.eqb sub "report" && String.eqb n "Three"
      then Ok ex_r3
      else Ok VNone
  end.

Definition ex_forward : list pyval :=
  [ex_rel "to" (ex_endpoint "r1" "report--1" "One");
   ex_rel "to" (ex_endpoint "r2" "report--2" "Two")].
Definition ex_backward : list pyval :=
  [ex_rel "from" (ex_endpoint "r2" "report--2" "Two");
   ex_rel "from" (ex_endpoint "r3" "report--3" "Three")].
Definition ex_forward_29 : list pyval :=
  [ex_rel "to" (ex_endpoint "r1" "report--1" "One");
   ex_rel "to" (ex_endpoint "r4" "report--4" "Four")].
Definition ex_backward_29 : list pyval :=
  [ex_rel "from" (ex_endpoint "r1" "report--1" "One")].
Definition ex_malwares : list pyval :=
  [ex_rel "to" (ex_endpoint "m1" "malware--111" "X-Agent");
   ex_rel "to" (VDict {[ "stix_id" := VStr "malware--222" ]})].
Definition ex_actors : list pyval :=
  [ex_rel "from" (ex_endpoint "a1" "threat-actor--1" "Actor1");
   ex_rel "from" (ex_endpoint "a2" "threat-actor--2" "Actor2");
   ex_rel "from" (ex_endpoint "a3" "threat-actor--3" "Actor3")].

Definition ex_list (sub : string) (kw : gmap string pyval) : result (list pyval) :=
  if String.eqb sub "stix_core_relationship" then
    if String.eqb (kw_str kw "fromId") "123" then Ok ex_forward
    else if String.eqb (kw_str kw "toId") "123" then Ok ex_backward
    else if String.eqb (kw_str kw "fromId") "124" then Ok ex_forward_29
    else if String.eqb (kw_str kw "toId") "124" then Ok ex_backward_29
    else if String.eqb (kw_str kw "fromId") "456" then Ok ex_malwares
    else if String.eqb (kw_str kw "toId") "77" then Ok ex_actors
    else Ok []
  else if String.eqb sub "report" then
    if String.eqb (kw_str kw "search") "Ghost"
    then Ok [ex_report "report--9" "Ghost sighting" (VStr "2024-10-10")]
    else if String.eqb (kw_str kw "search") "Three"
    then Ok [ex_r3]
    else Ok []
  else if String.eqb sub "identity" then
    if String.eqb (kw_str kw "search") "finance"
    then Ok [VDict {[ "id" := VStr "77"; "name" := VStr "Financial" ]}]
    else Ok []
  else Ok [].

Definition ex_client : OpenCTIApiClient :=
  {| client_read := ex_read; client_list := ex_list |}.

(** A representation of containers for [str], for running the examples;
    no example reaches it. *)
Definition ex_repr (v : pyval) : string := "<container>".

(** ** The rest of the server *)

(** [s.lower()].  The letters of ASCII are lowered and every other byte is
    kept: the tests of [search_sectors] look for "sector" and "class", and no
    character outside ASCII has a lower case that contains one of their
    letters, so the tests come out as they do in Python. *)
Definition ascii_lower (c : Ascii.ascii) : Ascii.ascii :=
  let n := Ascii.nat_of_ascii c in
  if (65 <=? n)%nat && (n <=? 90)%nat then Ascii.ascii_of_nat (n + 32) else c.

Fixpoint lower (s : string) : string :=
  match s with
  | EmptyString => EmptyString
  | String c s' => String (ascii_lower c) (lower s')
  end.

(** [v.lower()]: only strings have the method. *)
Definition py_lower (v : pyval) : result string :=
  match v with
  | VStr s => Ok (lower s)
  | _ => Raise AttributeError
  end.

(** [needle in hay] for two strings. *)
Fixpoint py_in (needle hay : string) : bool :=
  String.prefix needle hay
  || match hay with
     | EmptyString => false
     | String _ hay' => py_in needle hay'
     end.

Section SearchTools.
Context (container_repr : pyval → string).
Context (_cti_client : OpenCTIApiClient).

(** The body that the entity search tools share, each with its own
    sub-client: [list(search=search_term)], then the four-field row of
    every hit. *)
Definition search_entities (sub search_term : string) : M (list pyval) :=
  hits ← list_all _cti_client sub {[ "search" := VStr search_term ]};
  lift (mapM (_format_entity_with_aliases container_repr) hits).

Definition search_malware (search_term : string) :=
  search_entities "malware" search_term.
Definition search_intrusion_sets (search_term : string) :=
  search_entities "intrusion_set" search_term.
Definition search_attack_patterns (search_term : string) :=
  search_entities "attack_pattern" search_term.
Definition search_campaigns (search_term : string) :=
  search_entities "campaign" search_term.
Definition search_vulnerabilities (search_term : string) :=
  search_entities "vulnerability" search_term.
Definition search_threat_actors (search_term : string) :=
  search_entities "threat_actor" search_term.
Definition search_tools (search_term : string) :=
  search_entities "tool" search_term.

(** The entity search tools, each with its sub-client. *)
Definition entity_search_tools : list (string * (string → M (list pyval))) :=
  [ ("malware", search_malware);
    ("intrusion_set", search_intrusion_sets);
    ("attack_pattern", search_attack_patterns);
    ("campaign", search_campaigns);
    ("vulnerability", search_vulnerabilities);
    ("threat_actor", search_threat_actors);
    ("tool", search_tools) ].

(** [_find_entity_by_filter]: [order_by] is a string or [None]. *)
Definition _find_entity_by_filter (entity_type : string) (filters order_by : pyval)
    (order_mode : string) (limit : Z) : M (list pyval) :=
  let kwargs : gmap string pyval := {[ "filters" := filters; "first" := VInt limit ]} in
  let kwargs :=
    if truthy order_by
    then <[ "orderMode" := VStr order_mode ]> (<[ "orderBy" := order_by ]> kwargs)
    else kwargs in
  list_all _cti_client entity_type kwargs.

(** The test of [search_sectors] on the class of an identity:
    ["sector" in c.lower() or "class" in c.lower() or not c]. *)
Definition is_sector_class (identity_class : pyval) : result bool :=
  l ← py_lower identity_class;
  if py_in "sector" l then Ok true
  else
    l ← py_lower identity_class;
    if py_in "class" l then Ok true
    else Ok (negb (truthy identity_class)).

(** The body of the loop of [search_sectors]: the row that one identity
    contributes, if any. *)
Definition sector_rows (identity : pyval) : result (list pyval) :=
  identity_class ← py_get identity "identity_class" (VStr "");
  keep ← is_sector_class identity_class;
  if keep : bool then
    stix_id ← py_get identity "stix_id" (VStr "");
    name ← py_get identity "name" (VStr "");
    d ← py_get identity "description" VNone;
    Ok [VDict {[ "stix_id" := stix_id; "name" := name;
                 "description" := py_or d (VStr "") ]}]
  else Ok [].

Definition search_sectors (search_term : string) : M (list pyval) :=
  identities ← list_all _cti_client "identity" {[ "search" := VStr search_term ]};
  lift ((λ rows, mjoin rows) <$> mapM sector_rows identities).

(** The forward traversal tools, each with the sub-client of its lookup and
    the type of the entities it traverses to. *)
Definition forward_tool_targets
  : list (string * string * (string → M (list pyval))) :=
  [ ("intrusion_set", "Malware", get_malwares_of_intrusion_set _cti_client);
    ("intrusion_set", "Attack-Pattern", get_attack_patterns_of_intrusion_set _cti_client);
    ("malware", "Vulnerability", get_vulnerabilities_of_malware _cti_client);
    ("intrusion_set", "Tool", get_tools_used_by_intrusion_set _cti_client);
    ("report", "Malware", get_malwares_of_report _cti_client);
    ("report", "Intrusion-Set", get_intrusion_sets_of_report _cti_client);
    ("threat_actor", "Attack-Pattern", get_ttps_of_threat_actor _cti_client);
    ("intrusion_set", "Attack-Pattern", get_ttps_of_intrusion_set _cti_client);
    ("threat_actor", "Malware", get_malwares_used_by_threat_actor _cti_client);
    ("threat_actor", "Campaign", get_campaigns_by_threat_actor _cti_client);
    ("threat_actor", "Vulnerability",
     get_vulnerabilities_exploited_by_threat_actor _cti_client) ].
End SearchTools.

(** The four-field row of an entity, as the search tools present it. *)
Definition entity_row (container_repr : pyval → string) (entity : pyval) : pyval :=
  VDict {[ "stix_id" := default (VStr "") (fields entity !! "stix_id");
           "name" := default (VStr "") (fields entity !! "name");
           "aliases" :=
             VStr (labels_text container_repr (default VNone (fields entity !! "aliases")));
           "description" :=
             py_or (default VNone (fields entity !! "description")) (VStr "") ]}.

(** An entity record is a dictionary whose aliases can be formatted. *)
Definition entity_ok (entity : pyval) : bool :=
  match entity with
  | VDict d => labels_ok (default VNone (d !! "aliases"))
  | _ => false
  end.

Definition is_dict (v : pyval) : bool :=
  match v with VDict _ => true | _ => false end.

(** The three-field row of a sector. *)
Definition sector_row (identity : pyval) : pyval :=
  VDict {[ "stix_id" := default (VStr "") (fields identity !! "stix_id");
           "name" := default (VStr "") (fields identity !! "name");
           "description" :=
             py_or (default VNone (fields identity !! "description")) (VStr "") ]}.

(** The class of an identity, the empty string when it has none. *)
Definition identity_class_of (identity : pyval) : pyval :=
  default (VStr "") (fields identity !! "identity_class").

(** An identity record is a dictionary whose class, when present, is a
    string. *)
Definition identity_ok (identity : pyval) : bool :=
  is_dict identity && is_str (identity_class_of identity).

(** The identities that [search_sectors] keeps. *)
Definition sector_like (identity : pyval) : bool :=
  let c := str_of (identity_class_of identity) in
  py_in "sector" (lower c) || py_in "class" (lower c) || String.eqb c "".

(** A second platform, for the search tools: two malwares, one of them with
    null fields, and four identities. *)
Definition ex_malware_hits : list pyval :=
  [VDict {[ "stix_id" := VStr "malware--1"; "name" := VStr "X-Agent";
            "aliases" := VList [VStr "Sofacy"; VStr "CHOPSTICK"];
            "description" := VStr "A backdoor" ]};
   VDict {[ "stix_id" := VNone; "name" := VStr "Bare";
            "aliases" := VNone; "description" := VNone ]}].

Definition ex_identities : list pyval :=
  [VDict {[ "stix_id" := VStr "identity--1"; "name" := VStr "Financial";
            "identity_class" := VStr "Class"; "description" := VNone ]};
   VDict {[ "stix_id" := VStr "identity--2"; "name" := VStr "ACME";
            "identity_class" := VStr "organization" ]};
   VDict {[ "stix_id" := VStr "identity--3"; "name" := VStr "Energy Sector";
            "identity_class" := VStr "SECTOR" ]};
   VDict {[ "stix_id" := VStr "identity--4"; "name" := VStr "Unclassified" ]}].

Definition ex_catalog : OpenCTIApiClient :=
  {| client_read := λ sub kw,
       if String.eqb sub "intrusion_set" then Ok (VDict {[ "name" := VStr "NoId" ]})
       else if String.eqb sub "identity" then Raise (UpstreamError "timeout")
       else Ok VNone;
     client_list := λ sub kw,
       if String.eqb sub "malware" then Ok ex_malware_hits
       else if String.eqb sub "identity" then
         if String.eqb (kw_str kw "search") "null"
         then Ok [VDict {[ "name" := VStr "Odd"; "identity_class" := VNone ]}]
         else Ok ex_identities
       else if String.eqb sub "report" then Ok [ex_r3; ex_r1; ex_r2]
       else Ok [] |}.

(** The five-field record of a found report, as [get_report_details] presents
    it. *)
Definition details_row (container_repr : pyval → string) (r : pyval) : pyval :=
  VDict {[ "stix_id" := default (VStr "") (fields r !! "stix_id");
           "name" := default (VStr "") (fields r !! "name");
           "published" := default (VStr "") (fields r !! "published");
           "labels" := VStr (labels_text container_repr (default VNone (fields r !! "labels")));
           "description" := py_or (default VNone (fields r !! "description")) (VStr "") ]}.

(** A third platform, which answers by the name alone: a report whose
    publication date is the number 0, a name for which the platform is down,
    and an entity (internal id 9) one of whose relationships, in either
    direction, has a null endpoint. *)
Definition ex_odd_report : pyval :=
  VDict {[ "stix_id" := VStr "report--7"; "name" := VStr "Odd";
           "published" := VInt 0; "labels" := VNone ]}.

Definition ex_archive : OpenCTIApiClient :=
  {| client_read := λ sub kw,
       if String.eqb (kw_name kw) "Odd" then Ok ex_odd_report
       else if String.eqb (kw_name kw) "Three" then Ok ex_r3
       else if String.eqb (kw_name kw) "One" then Ok ex_r1
       else if String.eqb (kw_name kw) "Down" then Raise (UpstreamError "unreachable")
       else if String.eqb (kw_name kw) "Found" then Ok (VDict {[ "id" := VStr "9" ]})
       else Ok VNone;
     client_list := λ sub kw,
       if String.eqb (kw_str kw "fromId") "9"
       then Ok [ex_rel "to" (ex_endpoint "m1" "malware--111" "X-Agent");
                ex_rel "to" VNone]
       else if String.eqb (kw_str kw "toId") "9"
       then Ok [ex_rel "from" (ex_endpoint "a1" "threat-actor--1" "Actor1");
                ex_rel "from" VNone]
       else if String.eqb (kw_str kw "search") "Three"
       then Ok [ex_r3; ex_r1]
       else Raise (UpstreamError "unreachable") |}.

(** The threat actor that the lookup by name returns, [None] when the lookup
    raises. *)
Definition fetched_actor (_cti_client : OpenCTIApiClient) (name : string) : pyval :=
  match client_read _cti_client "threat_actor" {[ "filters" := name_filters name ]} with
  | Ok actor => actor
  | Raise _ => VNone
  end.

(** * Properties *)

(** ** The monad *)

Lemma M_bind_lift_ok {A B} (f : A → M B) (r : result A) x :
  r = Ok x → lift r ≫= f = f x.
Proof. intros ->. unfold lift, mbind, M_bind. simpl. by destruct (f x). Qed.

Lemma M_bind_get {B} (f : pyval → M B) d k dflt :
  lift (py_get (VDict d) k dflt) ≫= f = f (default dflt (d !! k)).
Proof. by apply M_bind_lift_ok. Qed.

Lemma M_bind_lift_raise {A B} (f : A → M B) (r : result A) e :
  r = Raise e → lift r ≫= f = ([], Raise e).
Proof. by intros ->. Qed.

Lemma M_bind_read_ok {B} c (f : pyval → M B) sub kw x :
  client_read c sub kw = Ok x →
  read c sub kw ≫= f = (Call sub Read kw :: trace (f x), outcome (f x)).
Proof. intros H. unfold read, mbind, M_bind. simpl. by rewrite H. Qed.

Lemma M_bind_list_ok {B} c (f : list pyval → M B) sub kw xs :
  client_list c sub kw = Ok xs →
  list_all c sub kw ≫= f = (Call sub ListAll kw :: trace (f xs), outcome (f xs)).
Proof. intros H. unfold list_all, mbind, M_bind. simpl. by rewrite H. Qed.

(** ** Mapping a function that may raise *)

Lemma mapM_result_ok {A B} (f : A → result B) (g : A → B) (l : list A) :
  Forall (λ x, f x = Ok (g x)) l → mapM f l = Ok (g <$> l).
Proof.
  induction 1 as [|x l Hx _ IH]; [done|].
  simpl. rewrite Hx. simpl. by rewrite IH.
Qed.

Lemma forallb_Forall_eq {A} (p : A → bool) (l : list A) :
  forallb p l = true → Forall (λ x, p x = true) l.
Proof.
  induction l as [|x l IH]; simpl; [constructor|].
  intros [Hx Hl]%andb_prop. constructor; auto.
Qed.

(** Case analysis on the membership of a tool in a list of tools. *)
Ltac each_tool Hin tac :=
  repeat (apply elem_of_cons in Hin as [[= -> ->]|Hin]; [tac|]);
  apply elem_of_nil in Hin; destruct Hin.

(** ** The alias formatter *)

Lemma mapM_as_str (l : list string) : mapM as_str (VStr <$> l) = Ok l.
Proof.
  induction l as [|s l IH]; [done|].
  rewrite fmap_cons. cbn [mapM]. by rewrite IH.
Qed.

Lemma py_join_strings (sep : string) (l : list string) :
  py_join sep (VStr <$> l) = Ok (String.concat sep l).
Proof. unfold py_join. by rewrite mapM_as_str. Qed.

(** C5, as amended.  [_format_aliases] maps [None] and the empty list to the
    empty string, a list of strings to its elements joined by ", " in their
    order, and a value that is not a list to its string representation when
    it is truthy and to the empty string when it is falsy. *)
Theorem format_aliases_spec (container_repr : pyval → string) :
  _format_aliases container_repr VNone = Ok ""
  ∧ _format_aliases container_repr (VList []) = Ok ""
  ∧ (∀ l : list string,
       _format_aliases container_repr (VList (VStr <$> l)) = Ok (String.concat ", " l))
  ∧ (∀ v, is_list v = false →
       _format_aliases container_repr v
       = Ok (if truthy v then py_str container_repr v else "")).
Proof.
  split; [done|]. split; [done|]. split.
  - intros [|s l]; [done|].
    unfold _format_aliases. simpl truthy. simpl negb. cbv iota.
    apply py_join_strings.
  - intros v Hv. unfold _format_aliases.
    destruct (truthy v) eqn:Ht; simpl; [|done].
    by destruct v.
Qed.

Lemma format_aliases_spec_witness :
  _format_aliases ex_repr (VStr "single_alias") = Ok "single_alias"
  ∧ _format_aliases ex_repr (VList [VStr "alias1"; VStr "alias2"; VStr "alias3"])
    = Ok "alias1, alias2, alias3".
Proof.
  split.
  - exact (proj2 (proj2 (proj2 (format_aliases_spec ex_repr)))
             (VStr "single_alias") eq_refl).
  - exact (proj1 (proj2 (proj2 (format_aliases_spec ex_repr)))
             ["alias1"; "alias2"; "alias3"]).
Defined.

(** C5, as stated, fails on a falsy scalar: the integer 0 is formatted as the
    empty string, while its string representation is "0". *)
Lemma format_aliases_falsy_scalar :
  is_list (VInt 0) = false
  ∧ _format_aliases ex_repr (VInt 0) = Ok ""
  ∧ py_str ex_repr (VInt 0) = "0"
  ∧ _format_aliases ex_repr (VInt 0) ≠ Ok (py_str ex_repr (VInt 0)).
Proof. repeat split; try reflexivity. vm_compute. discriminate. Qed.

(** ** The client accessor *)

(** C7, as amended.  [_create_opencti_client] raises the configuration error
    exactly when [OPENCTI_TOKEN] is absent or empty; otherwise it returns the
    client built from the token and from [OPENCTI_URL], or from
    http://localhost:8080 when that is unset. *)
Theorem create_opencti_client_spec {Client : Type} (new_client : string → string → Client)
    (environ : gmap string string) :
  (_create_opencti_client new_client environ = Raise token_error
     ↔ environ !! "OPENCTI_TOKEN" = None ∨ environ !! "OPENCTI_TOKEN" = Some "")
  ∧ (∀ token, environ !! "OPENCTI_TOKEN" = Some token → token ≠ "" →
       _create_opencti_client new_client environ
       = Ok (new_client (default "http://localhost:8080" (environ !! "OPENCTI_URL")) token)).
Proof.
  unfold _create_opencti_client, env_falsy.
  destruct (environ !! "OPENCTI_TOKEN") as [t|] eqn:Ht.
  - destruct (String.eqb_spec t "") as [->|Hne]; split.
    + split; auto.
    + intros token [= <-] Hne. by destruct Hne.
    + split; [discriminate|]. intros [[=]|[= ->]]. by destruct Hne.
    + by intros token [= <-] _.
  - split; [split; auto|]. intros token [=].
Qed.

Lemma create_opencti_client_spec_witness :
  _create_opencti_client (λ url token, (url, token)) {[ "OPENCTI_TOKEN" := "test-token" ]}
  = Ok ("http://localhost:8080", "test-token").
Proof.
  exact (proj2 (create_opencti_client_spec (λ url token, (url, token))
                  {[ "OPENCTI_TOKEN" := "test-token" ]})
           "test-token" eq_refl ltac:(discriminate)).
Defined.

(** C7, as stated, fails on a token that is set to the empty string: the
    setting is present and the accessor raises all the same. *)
Lemma create_opencti_client_empty_token :
  ¬ (_create_opencti_client (λ url token, (url, token)) {[ "OPENCTI_TOKEN" := "" ]}
       = Raise token_error
     ↔ ({[ "OPENCTI_TOKEN" := "" ]} : gmap string string) !! "OPENCTI_TOKEN" = None).
Proof. intros [H _]. specialize (H eq_refl). vm_compute in H. discriminate. Qed.

(** ** Formatting a report *)

Lemma mapM_as_str_ok (xs : list pyval) :
  forallb is_str xs = true → mapM as_str xs = Ok (str_of <$> xs).
Proof.
  intros H. apply mapM_result_ok.
  eapply Forall_impl; [by apply forallb_Forall_eq|].
  by intros [] ?.
Qed.

Lemma labels_str_of_ok container_repr (l : pyval) :
  labels_ok l = true →
  labels_str_of container_repr (py_or l (VList [])) = Ok (labels_text container_repr l).
Proof.
  intros Hl. unfold py_or, labels_text.
  destruct (truthy l) eqn:Ht; [|done].
  destruct l; try done.
  simpl in Hl. unfold labels_str_of, py_join. by rewrite mapM_as_str_ok.
Qed.

Lemma format_report_ok container_repr (r : pyval) :
  report_ok r = true → format_report container_repr r = Ok (report_row container_repr r).
Proof.
  destruct r as [| | | | |d]; try done.
  intros Hr. unfold format_report, report_row, published_or_empty. simpl.
  by rewrite (labels_str_of_ok _ _ Hr).
Qed.

Lemma format_search_hit_eq container_repr (r : pyval) :
  format_search_hit container_repr r = format_report container_repr r.
Proof. by destruct r. Qed.

Lemma mapM_format_report_ok container_repr (rs : list pyval) :
  forallb report_ok rs = true →
  mapM (format_report container_repr) rs = Ok (report_row container_repr <$> rs).
Proof.
  intros H. apply mapM_result_ok.
  eapply Forall_impl; [by apply forallb_Forall_eq|].
  intros r Hr. by apply format_report_ok.
Qed.

(** C10.  For a found report whose publication date is present and null,
    [get_report_details] returns the null as it is, while [search_reports]
    and the shared formatting of the report lists turn it into the empty
    string. *)
Theorem report_details_keeps_null_published
    (container_repr : pyval → string) (_cti_client : OpenCTIApiClient)
    (report_title search_term : string) (d : gmap string pyval) :
  client_read _cti_client "report" {[ "filters" := name_filters report_title ]}
    = Ok (VDict d) →
  client_list _cti_client "report" {[ "search" := VStr search_term ]} = Ok [VDict d] →
  d !! "published" = Some VNone →
  labels_ok (default VNone (d !! "labels")) = true →
  (∃ row, outcome (get_report_details container_repr _cti_client report_title)
            = Ok (VDict row)
          ∧ row !! "published" = Some VNone)
  ∧ (∃ row, outcome (search_reports container_repr _cti_client search_term)
              = Ok [VDict row]
            ∧ format_report container_repr (VDict d) = Ok (VDict row)
            ∧ row !! "published" = Some (VStr "")).
Proof.
  intros Hread Hlist Hpub Hlabels. split.
  - unfold get_report_details, _find_entity_by_name.
    rewrite (M_bind_read_ok _ _ _ _ _ Hread). cbn [is_none outcome snd].
    rewrite M_bind_get.
    rewrite (M_bind_lift_ok _ _ _ (labels_str_of_ok container_repr _ Hlabels)).
    rewrite !M_bind_get. rewrite Hpub. simpl. eexists; split; [reflexivity|].
    by simplify_map_eq.
  - unfold search_reports.
    rewrite (M_bind_list_ok _ _ _ _ _ Hlist).
    assert (Hok : report_ok (VDict d) = true) by done.
    cbn [outcome snd lift mapM].
    rewrite format_search_hit_eq, (format_report_ok container_repr _ Hok).
    eexists; split; [reflexivity|]. split; [reflexivity|].
    unfold published_or_empty. simpl. rewrite Hpub. by simplify_map_eq.
Qed.

Lemma report_details_keeps_null_published_witness :
  (∃ row, outcome (get_report_details ex_repr ex_client "Three") = Ok (VDict row)
          ∧ row !! "published" = Some VNone)
  ∧ (∃ row, outcome (search_reports ex_repr ex_client "Three") = Ok [VDict row]
            ∧ format_report ex_repr ex_r3 = Ok (VDict row)
            ∧ row !! "published" = Some (VStr "")).
Proof.
  apply (report_details_keeps_null_published ex_repr ex_client "Three" "Three"
           (fields ex_r3)); reflexivity.
Defined.

(** ** Forward and reverse traversal *)

Lemma format_relationship_target_ok (rel : pyval) :
  rel_ok "to" rel = true →
  _format_relationship_target rel = Ok (endpoint_record (endpoint "to" rel)).
Proof.
  destruct rel as [| | | | |r]; try done.
  unfold rel_ok, _format_relationship_target, endpoint. simpl.
  destruct (r !! "to") as [[| | | | |e]|]; done.
Qed.

Lemma format_relationship_source_ok (rel : pyval) :
  rel_ok "from" rel = true →
  format_relationship_source rel = Ok (endpoint_record (endpoint "from" rel)).
Proof.
  destruct rel as [| | | | |r]; try done.
  unfold rel_ok, format_relationship_source, endpoint. simpl.
  destruct (r !! "from") as [[| | | | |e]|]; done.
Qed.

Lemma get_related_entities_ok _cti_client id types rels :
  client_list _cti_client "stix_core_relationship"
    {[ "fromId" := id; "toTypes" := VList (VStr <$> types) ]} = Ok rels →
  forallb (rel_ok "to") rels = true →
  _get_related_entities _cti_client id types
  = ([Call "stix_core_relationship" ListAll
        {[ "fromId" := id; "toTypes" := VList (VStr <$> types) ]}],
     Ok (endpoint_record ∘ endpoint "to" <$> rels)).
Proof.
  intros Hlist Hok. unfold _get_related_entities.
  rewrite (M_bind_list_ok _ _ _ _ _ Hlist).
  rewrite (mapM_result_ok _ (endpoint_record ∘ endpoint "to")); [done|].
  eapply Forall_impl; [by apply forallb_Forall_eq|].
  intros rel Hrel. by apply format_relationship_target_ok.
Qed.

Lemma get_reverse_related_entities_ok _cti_client id types rels :
  client_list _cti_client "stix_core_relationship"
    {[ "toId" := id; "fromTypes" := VList (VStr <$> types) ]} = Ok rels →
  forallb (rel_ok "from") rels = true →
  _get_reverse_related_entities _cti_client id types
  = ([Call "stix_core_relationship" ListAll
        {[ "toId" := id; "fromTypes" := VList (VStr <$> types) ]}],
     Ok (endpoint_record ∘ endpoint "from" <$> rels)).
Proof.
  intros Hlist Hok. unfold _get_reverse_related_entities.
  rewrite (M_bind_list_ok _ _ _ _ _ Hlist).
  rewrite (mapM_result_ok _ (endpoint_record ∘ endpoint "from")); [done|].
  eapply Forall_impl; [by apply forallb_Forall_eq|].
  intros rel Hrel. by apply format_relationship_source_ok.
Qed.

(** C4.  The forward traversal returns, for the relationship records that
    the client lists, their target endpoints projected to stix_id and name,
    one per relationship and in the same order, with the empty string for a
    missing field; the reverse traversal does the same with the source
    endpoints. *)
Theorem traversal_projects_counterpart (_cti_client : OpenCTIApiClient)
    (id : pyval) (types : list string) (forward backward : list pyval) :
  client_list _cti_client "stix_core_relationship"
    {[ "fromId" := id; "toTypes" := VList (VStr <$> types) ]} = Ok forward →
  client_list _cti_client "stix_core_relationship"
    {[ "toId" := id; "fromTypes" := VList (VStr <$> types) ]} = Ok backward →
  forallb (rel_ok "to") forward = true →
  forallb (rel_ok "from") backward = true →
  (∃ out, outcome (_get_related_entities _cti_client id types) = Ok out
          ∧ length out = length forward
          ∧ ∀ i rel, forward !! i = Some rel →
              out !! i = Some (VDict {[ "stix_id" := default (VStr "") (endpoint "to" rel !! "stix_id");
                                        "name" := default (VStr "") (endpoint "to" rel !! "name") ]}))
  ∧ (∃ out, outcome (_get_reverse_related_entities _cti_client id types) = Ok out
          ∧ length out = length backward
          ∧ ∀ i rel, backward !! i = Some rel →
              out !! i = Some (VDict {[ "stix_id" := default (VStr "") (endpoint "from" rel !! "stix_id");
                                        "name" := default (VStr "") (endpoint "from" rel !! "name") ]})).
Proof.
  intros Hf Hb Hfok Hbok. split.
  - rewrite (get_related_entities_ok _ _ _ _ Hf Hfok).
    eexists; split; [reflexivity|]. split; [by rewrite length_fmap|].
    intros i rel Hi. by rewrite list_lookup_fmap, Hi.
  - rewrite (get_reverse_related_entities_ok _ _ _ _ Hb Hbok).
    eexists; split; [reflexivity|]. split; [by rewrite length_fmap|].
    intros i rel Hi. by rewrite list_lookup_fmap, Hi.
Qed.

Lemma traversal_projects_counterpart_witness :
  (∃ out, outcome (_get_related_entities ex_client (VStr "456") ["Malware"]) = Ok out
          ∧ length out = 2
          ∧ ∀ i rel,
              ex_malwares !! i = Some rel →
              out !! i = Some (VDict {[ "stix_id" := default (VStr "") (endpoint "to" rel !! "stix_id");
                                        "name" := default (VStr "") (endpoint "to" rel !! "name") ]}))
  ∧ (∃ out, outcome (_get_reverse_related_entities ex_client (VStr "456") ["Malware"]) = Ok out
          ∧ length out = 0
          ∧ ∀ i rel, [] !! i = Some rel →
              out !! i = Some (VDict {[ "stix_id" := default (VStr "") (endpoint "from" rel !! "stix_id");
                                        "name" := default (VStr "") (endpoint "from" rel !! "name") ]})).
Proof.
  apply (traversal_projects_counterpart ex_client (VStr "456") ["Malware"]
           ex_malwares []);
    reflexivity.
Defined.

(** ** Entities that are not found *)

Lemma related_of_not_found _cti_client etype name types :
  client_read _cti_client etype {[ "filters" := name_filters name ]} = Ok VNone →
  related_of _cti_client etype name types
  = ([Call etype Read {[ "filters" := name_filters name ]}], Ok []).
Proof.
  intros Hread. unfold related_of, _find_entity_by_name.
  by rewrite (M_bind_read_ok _ _ _ _ _ Hread).
Qed.

Lemma targeting_sector_not_found _cti_client from_type name limit :
  client_read _cti_client "identity" {[ "filters" := name_filters name ]} = Ok VNone →
  client_list _cti_client "identity" {[ "search" := VStr name; "first" := VInt 1 ]} = Ok [] →
  targeting_sector _cti_client from_type name limit
  = ([sector_read_call name; sector_search_call name], Ok []).
Proof.
  intros Hread Hlist. unfold targeting_sector.
  rewrite (M_bind_read_ok _ _ _ _ _ Hread). cbn [is_none].
  by rewrite (M_bind_list_ok _ _ _ _ _ Hlist).
Qed.

(** C2, as amended.  When the lookup by name yields nothing, every forward
    traversal tool returns the empty list and [get_report_details] returns
    the record whose five fields are the empty string; the sector tools
    return the empty list when the search they fall back on yields nothing
    either.  ([get_latest_reports_mentioning_threat_actor] falls back on a
    search of the reports and returns what it finds.) *)
Theorem not_found_is_empty (container_repr : pyval → string)
    (_cti_client : OpenCTIApiClient) (name : string) :
  (∀ etype tool, (etype, tool) ∈ forward_tools _cti_client →
     client_read _cti_client etype {[ "filters" := name_filters name ]} = Ok VNone →
     outcome (tool name) = Ok [])
  ∧ (client_read _cti_client "report" {[ "filters" := name_filters name ]} = Ok VNone →
     outcome (get_report_details container_repr _cti_client name)
     = Ok (VDict {[ "stix_id" := VStr ""; "name" := VStr ""; "published" := VStr "";
                    "labels" := VStr ""; "description" := VStr "" ]}))
  ∧ (∀ from_type tool limit, (from_type, tool) ∈ sector_tools _cti_client →
     client_read _cti_client "identity" {[ "filters" := name_filters name ]} = Ok VNone →
     client_list _cti_client "identity" {[ "search" := VStr name; "first" := VInt 1 ]}
       = Ok [] →
     outcome (tool name limit) = Ok []).
Proof.
  split; [|split].
  - intros etype tool Hin Hread.
    unfold forward_tools in Hin.
    each_tool Hin ltac:(exact (f_equal outcome (related_of_not_found _ _ name _ Hread))).
  - intros Hread. unfold get_report_details, _find_entity_by_name.
    by rewrite (M_bind_read_ok _ _ _ _ _ Hread).
  - intros from_type tool limit Hin Hread Hlist.
    unfold sector_tools in Hin.
    each_tool Hin ltac:(exact (f_equal outcome
                                 (targeting_sector_not_found _ _ name limit Hread Hlist))).
Qed.

Lemma not_found_is_empty_witness :
  outcome (get_malwares_of_intrusion_set ex_client "DoesNotExist") = Ok []
  ∧ outcome (get_report_details ex_repr ex_client "Nonexistent Report")
    = Ok (VDict {[ "stix_id" := VStr ""; "name" := VStr ""; "published" := VStr "";
                   "labels" := VStr ""; "description" := VStr "" ]})
  ∧ outcome (get_threat_actors_targeting_sector ex_client "Nowhere" 10) = Ok [].
Proof.
  split; [|split].
  - apply (proj1 (not_found_is_empty ex_repr ex_client "DoesNotExist")
             "intrusion_set" _ (list_elem_of_here _ _)).
    reflexivity.
  - apply (proj1 (proj2 (not_found_is_empty ex_repr ex_client "Nonexistent Report"))).
    reflexivity.
  - apply (proj2 (proj2 (not_found_is_empty ex_repr ex_client "Nowhere"))
             "Threat-Actor" _ 10%Z (list_elem_of_here _ _)); reflexivity.
Defined.

(** C2, as stated, fails on [get_latest_reports_mentioning_threat_actor]: the
    lookup of the threat actor Ghost yields nothing, and the tool returns the
    report that the search finds. *)
Lemma not_found_fallback_is_not_empty :
  outcome (_find_entity_by_name ex_client "threat_actor" "Ghost") = Ok VNone
  ∧ outcome (get_latest_reports_mentioning_threat_actor ex_repr elements ex_client "Ghost" 10)
    = Ok [report_row ex_repr (ex_report "report--9" "Ghost sighting" (VStr "2024-10-10"))]
  ∧ outcome (get_latest_reports_mentioning_threat_actor ex_repr elements ex_client "Ghost" 10)
    ≠ Ok [].
Proof.
  split; [reflexivity|]. split; [reflexivity|].
  vm_compute. discriminate.
Qed.

(** ** The sector tools *)

Lemma sector_traversal_ok _cti_client from_type limit sector id rels :
  py_getitem sector "id" = Ok id →
  client_list _cti_client "stix_core_relationship"
    {[ "toId" := id; "fromTypes" := VList [VStr from_type] ]} = Ok rels →
  forallb (rel_ok "from") rels = true →
  sector_traversal _cti_client from_type limit sector
  = ([Call "stix_core_relationship" ListAll
        {[ "toId" := id; "fromTypes" := VList [VStr from_type] ]}],
     Ok (py_slice_to limit (endpoint_record ∘ endpoint "from" <$> rels))).
Proof.
  intros Hid Hlist Hok. unfold sector_traversal.
  rewrite (M_bind_lift_ok _ _ _ Hid).
  by rewrite (get_reverse_related_entities_ok _ id [from_type] rels Hlist Hok).
Qed.

Lemma sector_traversal_trace _cti_client from_type limit sector :
  Forall (λ c, is_traversal c = true)
    (trace (sector_traversal _cti_client from_type limit sector)).
Proof.
  unfold sector_traversal.
  destruct (py_getitem sector "id") as [id|e] eqn:Hid.
  - rewrite (M_bind_lift_ok _ _ _ eq_refl).
    unfold _get_reverse_related_entities, list_all, trace, mbind, M_bind, fmap, M_fmap.
    cbn [fst snd].
    destruct (client_list _ _ _); cbn [fst snd lift app]; by repeat constructor.
  - rewrite (M_bind_lift_raise _ _ _ eq_refl). constructor.
Qed.

Lemma targeting_sector_exact _cti_client from_type name limit sector :
  client_read _cti_client "identity" {[ "filters" := name_filters name ]} = Ok sector →
  is_none sector = false →
  targeting_sector _cti_client from_type name limit
  = (sector_read_call name :: trace (sector_traversal _cti_client from_type limit sector),
     outcome (sector_traversal _cti_client from_type limit sector)).
Proof.
  intros Hread Hsome. unfold targeting_sector.
  rewrite (M_bind_read_ok _ _ _ _ _ Hread). by rewrite Hsome.
Qed.

Lemma targeting_sector_fallback _cti_client from_type name limit sector rest :
  client_read _cti_client "identity" {[ "filters" := name_filters name ]} = Ok VNone →
  client_list _cti_client "identity" {[ "search" := VStr name; "first" := VInt 1 ]}
    = Ok (sector :: rest) →
  targeting_sector _cti_client from_type name limit
  = (sector_read_call name :: sector_search_call name
       :: trace (sector_traversal _cti_client from_type limit sector),
     outcome (sector_traversal _cti_client from_type limit sector)).
Proof.
  intros Hread Hlist. unfold targeting_sector.
  rewrite (M_bind_read_ok _ _ _ _ _ Hread). cbn [is_none].
  by rewrite (M_bind_list_ok _ _ _ _ _ Hlist).
Qed.

Lemma py_slice_to_nonneg {A} (n : Z) (xs : list A) :
  (0 ≤ n)%Z → py_slice_to n xs = take (Z.to_nat n) xs.
Proof. intros Hn. unfold py_slice_to. by rewrite (proj2 (Z.leb_le 0 n) Hn). Qed.

(** C3, as amended.  For a limit L that is not negative, a sector tool whose
    sector is resolved and whose reverse traversal lists n relationships
    returns the first min(L, n) elements of their projection, in the order of
    the client. *)
Theorem sector_limit_law (_cti_client : OpenCTIApiClient)
    (from_type : string) (tool : string → Z → M (list pyval))
    (name : string) (limit : Z) (sector id : pyval) (rels : list pyval) :
  (from_type, tool) ∈ sector_tools _cti_client →
  (0 ≤ limit)%Z →
  (client_read _cti_client "identity" {[ "filters" := name_filters name ]} = Ok sector
     ∧ is_none sector = false)
  ∨ (client_read _cti_client "identity" {[ "filters" := name_filters name ]} = Ok VNone
     ∧ ∃ rest, client_list _cti_client "identity"
                 {[ "search" := VStr name; "first" := VInt 1 ]} = Ok (sector :: rest)) →
  py_getitem sector "id" = Ok id →
  client_list _cti_client "stix_core_relationship"
    {[ "toId" := id; "fromTypes" := VList [VStr from_type] ]} = Ok rels →
  forallb (rel_ok "from") rels = true →
  ∃ out, outcome (tool name limit) = Ok out
         ∧ out = take (Z.to_nat (Z.min limit (Z.of_nat (length rels))))
                   (endpoint_record ∘ endpoint "from" <$> rels)
         ∧ Z.of_nat (length out) = Z.min limit (Z.of_nat (length rels)).
Proof.
  intros Hin Hlimit Hsector Hid Hlist Hok.
  assert (Hrun : outcome (targeting_sector _cti_client from_type name limit)
                 = Ok (py_slice_to limit (endpoint_record ∘ endpoint "from" <$> rels))).
  { destruct Hsector as [[Hread Hsome]|[Hread [rest Hsearch]]].
    - rewrite (targeting_sector_exact _ _ _ _ _ Hread Hsome).
      by rewrite (sector_traversal_ok _ _ _ _ _ _ Hid Hlist Hok).
    - rewrite (targeting_sector_fallback _ _ _ _ _ _ Hread Hsearch).
      by rewrite (sector_traversal_ok _ _ _ _ _ _ Hid Hlist Hok). }
  assert (Htool : tool = targeting_sector _cti_client from_type).
  { unfold sector_tools in Hin. each_tool Hin ltac:(reflexivity). }
  subst tool. rewrite Hrun, (py_slice_to_nonneg _ _ Hlimit).
  eexists; split; [reflexivity|].
  destruct (Z.min_spec limit (Z.of_nat (length rels))) as [[Hlt ->]|[Hle ->]].
  - split; [done|]. rewrite length_take, length_fmap. lia.
  - rewrite Nat2Z.id. split.
    + rewrite !take_ge; [done| |]; rewrite length_fmap; lia.
    + rewrite length_take, length_fmap. lia.
Qed.

Lemma sector_limit_law_witness :
  ∃ out, outcome (get_threat_actors_targeting_sector ex_client "finance" 2) = Ok out
         ∧ out = take (Z.to_nat (Z.min 2 3))
                   (endpoint_record ∘ endpoint "from" <$> ex_actors)
         ∧ Z.of_nat (length out) = Z.min 2 3.
Proof.
  apply (sector_limit_law ex_client "Threat-Actor" _ "finance" 2
           (VDict {[ "id" := VStr "77"; "name" := VStr "Financial" ]}) (VStr "77")
           ex_actors (list_elem_of_here _ _)).
  - lia.
  - right. split; [reflexivity|]. by exists [].
  - reflexivity.
  - reflexivity.
  - reflexivity.
Defined.

(** C3, as stated, fails on a negative limit: with three relationships and
    the limit -1 the tool returns two elements, and min(-1, 3) is -1. *)
Lemma sector_limit_negative :
  ∃ rels out,
    client_list ex_client "stix_core_relationship"
      {[ "toId" := VStr "77"; "fromTypes" := VList [VStr "Threat-Actor"] ]} = Ok rels
    ∧ outcome (get_threat_actors_targeting_sector ex_client "Financial" (-1)) = Ok out
    ∧ length rels = 3 ∧ length out = 2
    ∧ Z.of_nat (length out) ≠ Z.min (-1) (Z.of_nat (length rels)).
Proof.
  eexists _, _. split; [reflexivity|]. split; [reflexivity|].
  split; [reflexivity|]. split; [reflexivity|]. vm_compute. discriminate.
Qed.

(** C8.  A sector tool first reads the sector by its exact name.  When the
    read yields a sector, the tool traverses from it and makes no search;
    when it yields nothing, the tool searches for the name with a cap of one
    result and traverses from the first hit; when the search yields nothing
    either, the tool returns the empty list and has made no traversal. *)
Theorem sector_resolution (_cti_client : OpenCTIApiClient)
    (from_type : string) (tool : string → Z → M (list pyval))
    (name : string) (limit : Z) :
  (from_type, tool) ∈ sector_tools _cti_client →
  (∃ rest, trace (tool name limit) = sector_read_call name :: rest)
  ∧ (∀ sector,
       client_read _cti_client "identity" {[ "filters" := name_filters name ]} = Ok sector →
       is_none sector = false →
       tool name limit
       = (sector_read_call name
            :: trace (sector_traversal _cti_client from_type limit sector),
          outcome (sector_traversal _cti_client from_type limit sector))
       ∧ sector_search_call name ∉ trace (tool name limit))
  ∧ (∀ sector rest,
       client_read _cti_client "identity" {[ "filters" := name_filters name ]} = Ok VNone →
       client_list _cti_client "identity" {[ "search" := VStr name; "first" := VInt 1 ]}
         = Ok (sector :: rest) →
       tool name limit
       = (sector_read_call name :: sector_search_call name
            :: trace (sector_traversal _cti_client from_type limit sector),
          outcome (sector_traversal _cti_client from_type limit sector)))
  ∧ (client_read _cti_client "identity" {[ "filters" := name_filters name ]} = Ok VNone →
     client_list _cti_client "identity" {[ "search" := VStr name; "first" := VInt 1 ]}
       = Ok [] →
     tool name limit = ([sector_read_call name; sector_search_call name], Ok [])
     ∧ existsb is_traversal (trace (tool name limit)) = false).
Proof.
  intros Hin.
  assert (Htool : tool = targeting_sector _cti_client from_type).
  { unfold sector_tools in Hin. each_tool Hin ltac:(reflexivity). }
  subst tool. split; [|split; [|split]].
  - unfold targeting_sector, read, trace, mbind, M_bind. cbn [fst snd].
    destruct (client_read _ _ _); cbn [fst snd app]; eauto.
  - intros sector Hread Hsome.
    rewrite (targeting_sector_exact _ _ _ _ _ Hread Hsome). split; [done|].
    cbn [trace fst]. intros [Heq|Hin']%elem_of_cons; [discriminate|].
    pose proof (sector_traversal_trace _cti_client from_type limit sector) as Htr.
    rewrite Forall_forall in Htr. specialize (Htr _ Hin'). discriminate.
  - intros sector rest Hread Hlist.
    apply (targeting_sector_fallback _ _ _ _ _ _ Hread Hlist).
  - intros Hread Hlist.
    by rewrite (targeting_sector_not_found _ _ _ _ Hread Hlist).
Qed.

Lemma sector_resolution_witness :
  get_threat_actors_targeting_sector ex_client "Nowhere" 10
  = ([sector_read_call "Nowhere"; sector_search_call "Nowhere"], Ok [])
  ∧ existsb is_traversal (trace (get_threat_actors_targeting_sector ex_client "Nowhere" 10))
    = false.
Proof.
  apply (proj2 (proj2 (proj2 (sector_resolution ex_client "Threat-Actor" _ "Nowhere" 10
                                (list_elem_of_here _ _)))));
    reflexivity.
Defined.

(** ** Reports that mention a threat actor: the fallback *)

(** C9.  When the threat actor is not found by its exact name, the tool makes
    no relationship traversal: it searches the reports for the name, ordered
    by publication date in descending order and capped at the limit, and
    returns the formatted result of that search, which is no error for
    well-formed reports. *)
Theorem actor_fallback_search (container_repr : pyval → string)
    (set_iter : gset string → list string) (_cti_client : OpenCTIApiClient)
    (name : string) (limit : Z) :
  client_read _cti_client "threat_actor" {[ "filters" := name_filters name ]} = Ok VNone →
  trace (get_latest_reports_mentioning_threat_actor
           container_repr set_iter _cti_client name limit)
  = [Call "threat_actor" Read {[ "filters" := name_filters name ]};
     Call "report" ListAll (report_search_kwargs name limit)]
  ∧ existsb is_traversal
      (trace (get_latest_reports_mentioning_threat_actor
                container_repr set_iter _cti_client name limit)) = false
  ∧ outcome (get_latest_reports_mentioning_threat_actor
               container_repr set_iter _cti_client name limit)
    = client_list _cti_client "report" (report_search_kwargs name limit)
        ≫= mapM (format_report container_repr)
  ∧ ∀ reports,
      client_list _cti_client "report" (report_search_kwargs name limit) = Ok reports →
      forallb report_ok reports = true →
      outcome (get_latest_reports_mentioning_threat_actor
                 container_repr set_iter _cti_client name limit)
      = Ok (report_row container_repr <$> reports).
Proof.
  intros Hread.
  assert (Hrun : get_latest_reports_mentioning_threat_actor
                   container_repr set_iter _cti_client name limit
                 = ([Call "threat_actor" Read {[ "filters" := name_filters name ]};
                     Call "report" ListAll (report_search_kwargs name limit)],
                    client_list _cti_client "report" (report_search_kwargs name limit)
                      ≫= mapM (format_report container_repr))).
  { unfold get_latest_reports_mentioning_threat_actor, _find_entity_by_name.
    rewrite (M_bind_read_ok _ _ _ _ _ Hread). cbn [is_none].
    fold (report_search_kwargs name limit).
    unfold list_all, trace, outcome, mbind at 1, M_bind. cbn [fst snd].
    by destruct (client_list _ _ _). }
  rewrite Hrun. split; [done|]. split; [done|]. split; [done|].
  intros reports Hlist Hok. cbn [outcome snd]. rewrite Hlist.
  by apply mapM_format_report_ok.
Qed.

Lemma actor_fallback_search_witness :
  outcome (get_latest_reports_mentioning_threat_actor ex_repr elements ex_client "Ghost" 10)
  = Ok [report_row ex_repr (ex_report "report--9" "Ghost sighting" (VStr "2024-10-10"))].
Proof.
  apply (proj2 (proj2 (proj2 (actor_fallback_search ex_repr elements ex_client "Ghost" 10
                                eq_refl)))
           [ex_report "report--9" "Ghost sighting" (VStr "2024-10-10")]);
    reflexivity.
Defined.

(** ** The order of strings *)

Lemma ascii_compare_trans c (a1 a2 a3 : Ascii.ascii) :
  Ascii.compare a1 a2 = c → Ascii.compare a2 a3 = c → Ascii.compare a1 a3 = c.
Proof.
  unfold Ascii.compare. intros H1 H2. destruct c.
  - apply N.compare_eq_iff in H1, H2. apply N.compare_eq_iff. congruence.
  - apply N.compare_lt_iff in H1, H2. apply N.compare_lt_iff.
    by etrans.
  - apply N.compare_gt_iff in H1, H2. apply N.compare_gt_iff.
    by etrans.
Qed.

Lemma string_compare_lt_trans (s1 s2 s3 : string) :
  String.compare s1 s2 = Lt → String.compare s2 s3 = Lt → String.compare s1 s3 = Lt.
Proof.
  revert s2 s3. induction s1 as [|a1 s1 IH]; intros [|a2 s2] [|a3 s3]; simpl; try done.
  destruct (Ascii.compare a1 a2) eqn:H12; try done;
    destruct (Ascii.compare a2 a3) eqn:H23; try done.
  - rewrite (ascii_compare_trans Eq _ _ _ H12 H23). apply IH.
  - apply Ascii.compare_eq_iff in H12 as ->. by rewrite H23.
  - apply Ascii.compare_eq_iff in H23 as <-. by rewrite H12.
  - by rewrite (ascii_compare_trans Lt _ _ _ H12 H23).
Qed.

Lemma string_leb_trans (s1 s2 s3 : string) :
  String.leb s1 s2 = true → String.leb s2 s3 = true → String.leb s1 s3 = true.
Proof.
  unfold String.leb.
  destruct (String.compare s1 s2) eqn:H12; try done;
    destruct (String.compare s2 s3) eqn:H23; try done; intros _ _.
  - apply String.compare_eq_iff in H12 as ->. by rewrite H23.
  - apply String.compare_eq_iff in H12 as ->. by rewrite H23.
  - apply String.compare_eq_iff in H23 as <-. by rewrite H12.
  - by rewrite (string_compare_lt_trans _ _ _ H12 H23).
Qed.

Lemma string_ltb_leb (s t : string) : String.ltb s t = true → String.leb s t = true.
Proof. unfold String.ltb, String.leb. by destruct (String.compare s t). Qed.

Lemma string_not_ltb_leb (s t : string) : String.ltb s t = false → String.leb t s = true.
Proof.
  unfold String.ltb, String.leb. rewrite (String.compare_antisym s t).
  by destruct (String.compare t s).
Qed.

Lemma string_leb_empty (s : string) : String.leb s "" = true → s = "".
Proof. destruct s; [done|]. unfold String.leb. simpl. discriminate. Qed.

(** ** Sorting *)

Section SortingProperties.
Context {A : Type} (lt : A → A → result bool) (le : A → A → Prop) (ok : A → Prop).
Hypothesis lt_ok : ∀ x y, ok x → ok y →
  ∃ b : bool, lt x y = Ok b ∧ (b = true → le x y) ∧ (b = false → le y x).
Hypothesis le_trans : ∀ x y z, le x y → le y z → le x z.

Lemma insert_asc_sorted (x : A) (l : list A) :
  ok x → Forall ok l → StronglySorted le l →
  ∃ s, insert_asc lt x l = Ok s ∧ s ≡ₚ x :: l ∧ StronglySorted le s.
Proof.
  intros Hx Hl Hs. induction l as [|y l IH]; simpl.
  - exists [x]. repeat split; [done|]. by repeat constructor.
  - apply Forall_cons in Hl as [Hy Hl].
    apply StronglySorted_inv in Hs as [Hs Hyl].
    destruct (lt_ok y x Hy Hx) as (b & -> & Htrue & Hfalse). simpl.
    destruct b.
    + destruct (IH Hl Hs) as (s & -> & Hperm & Hsorted). simpl.
      exists (y :: s). split; [done|]. split.
      * rewrite Hperm. apply perm_swap.
      * constructor; [done|]. rewrite Hperm. constructor; [by apply Htrue|done].
    + exists (x :: y :: l). split; [done|]. split; [done|].
      constructor; [by constructor|].
      constructor; [by apply Hfalse|].
      eapply Forall_impl; [exact Hyl|].
      intros z Hz. eapply le_trans; [by apply Hfalse|done].
Qed.

Lemma sort_asc_sorted (l : list A) :
  Forall ok l → ∃ s, sort_asc lt l = Ok s ∧ s ≡ₚ l ∧ StronglySorted le s.
Proof.
  induction l as [|x l IH]; intros Hl; simpl.
  - exists []. repeat split; [done|]. constructor.
  - apply Forall_cons in Hl as [Hx Hl].
    destruct (IH Hl) as (s & -> & Hperm & Hsorted). simpl.
    destruct (insert_asc_sorted x s Hx) as (s' & Hins & Hperm' & Hsorted'); [|done|].
    { by rewrite Hperm. }
    exists s'. split; [done|]. split; [|done]. by rewrite Hperm', Hperm.
Qed.

Lemma StronglySorted_reverse (l : list A) :
  StronglySorted le l → StronglySorted (flip le) (reverse l).
Proof.
  induction 1 as [|x l Hs IH Hx]; [constructor|].
  rewrite reverse_cons. apply StronglySorted_app_2; [|done|by repeat constructor].
  intros y z Hy ->%list_elem_of_singleton.
  rewrite elem_of_reverse in Hy.
  rewrite Forall_forall in Hx. unfold flip. by apply Hx.
Qed.

Lemma sort_desc_sorted (l : list A) :
  Forall ok l → ∃ s, sort_desc lt l = Ok s ∧ s ≡ₚ l ∧ StronglySorted (flip le) s.
Proof.
  intros Hl. unfold sort_desc.
  destruct (sort_asc_sorted (reverse l)) as (s & -> & Hperm & Hsorted).
  { by rewrite reverse_Permutation. }
  exists (reverse s). split; [done|]. split.
  - by rewrite reverse_Permutation, Hperm, reverse_Permutation.
  - by apply StronglySorted_reverse.
Qed.
End SortingProperties.

(** ** Reports that mention a threat actor: the traversal *)

Lemma M_bind_ok {A B} (f : A → M B) (m : M A) t x :
  m = (t, Ok x) → m ≫= f = (t ++ trace (f x), outcome (f x)).
Proof. by intros ->. Qed.

Lemma published_key_ok (r : pyval) :
  dated_ok r = true → published_key r = Ok (VStr (pubdate r)).
Proof.
  destruct r as [| | | | |d]; try done.
  unfold dated_ok, published_key, pubdate, published_or_empty. simpl.
  by destruct (py_or (default VNone (d !! "published")) (VStr "")).
Qed.

Lemma zip_fmap_diag {A B} (f : A → B) (l : list A) :
  zip (f <$> l) l = (λ x, (f x, x)) <$> l.
Proof. induction l as [|x l IH]; [done|]. simpl. f_equal. exact IH. Qed.

Lemma py_sort_published (l : list pyval) :
  Forall (λ r, dated_ok r = true) l →
  ∃ s, py_sort_key_reverse published_key l = Ok s
       ∧ s ≡ₚ l ∧ StronglySorted newer_first s.
Proof.
  intros Hl. unfold py_sort_key_reverse.
  rewrite (mapM_result_ok _ (λ r, VStr (pubdate r))).
  2:{ eapply Forall_impl; [exact Hl|]. intros r Hr. by apply published_key_ok. }
  simpl. rewrite zip_fmap_diag.
  destruct (sort_desc_sorted (λ a b : pyval * pyval, py_lt a.1 b.1)
              (λ p q, String.leb (pubdate p.2) (pubdate q.2) = true)
              (λ p, p.1 = VStr (pubdate p.2)))
    with (l := (λ r, (VStr (pubdate r), r)) <$> l)
    as (s & -> & Hperm & Hsorted).
  - intros [k1 r1] [k2 r2]; simpl; intros -> ->. simpl.
    eexists; split; [reflexivity|]. split.
    + apply string_ltb_leb.
    + apply string_not_ltb_leb.
  - intros x y z. apply string_leb_trans.
  - apply Forall_fmap. by apply Forall_true.
  - simpl. exists (s.*2). split; [done|]. split.
    + rewrite Hperm. rewrite <- list_fmap_compose. simpl. by rewrite list_fmap_id.
    + eapply StronglySorted_fmap; [|exact Hsorted]. by intros x y.
Qed.

Lemma endpoint_id_ok (side : string) (rel : pyval) :
  rel_id_ok side rel = true →
  endpoint_id side rel
  = Ok (VStr <$> (if truthy (endpoint_internal_id side rel)
                  then [str_of (endpoint_internal_id side rel)] else [])).
Proof.
  unfold rel_id_ok, endpoint_internal_id, endpoint, endpoint_id.
  destruct rel as [| | | | |r]; try done. simpl.
  destruct (r !! side) as [[| | | | |e]|]; try done; simpl.
  destruct (e !! "id") as [i|]; [|done]. simpl.
  destruct (truthy i); [|done]. simpl. by destruct i.
Qed.

Lemma collect_ids_ok (side : string) (rels : list pyval) :
  forallb (rel_id_ok side) rels = true →
  collect_ids side rels = Ok (VStr <$> endpoint_ids side rels).
Proof.
  intros Hok. unfold collect_ids, endpoint_ids.
  rewrite (mapM_result_ok _
             (λ rel, VStr <$> (if truthy (endpoint_internal_id side rel)
                               then [str_of (endpoint_internal_id side rel)] else []))).
  2:{ eapply Forall_impl; [by apply forallb_Forall_eq|].
      intros rel Hrel. by apply endpoint_id_ok. }
  simpl. f_equal. clear Hok.
  rewrite list_join_bind, list_fmap_bind.
  induction rels as [|rel rels IH]; [done|].
  rewrite !bind_cons, fmap_app. by rewrite IH.
Qed.

Lemma py_set_strings (l : list string) : py_set (VStr <$> l) = Ok (list_to_set l).
Proof. unfold py_set. by rewrite mapM_as_str. Qed.

Lemma fetch_ok_fetched c (i : string) :
  fetch_ok c i = true →
  client_read c "report" {[ "id" := VStr i ]} = Ok (fetched c i)
  ∧ (truthy (fetched c i) = true →
     report_ok (fetched c i) = true ∧ dated_ok (fetched c i) = true).
Proof.
  unfold fetch_ok, fetched, fetch_report.
  destruct (client_read c "report" _) as [r|e]; [|done].
  intros H. split; [done|]. intros Ht. rewrite Ht in H. simpl in H.
  by apply andb_prop in H.
Qed.

Lemma mapM_read_ok c (l : list string) :
  Forall (λ i, fetch_ok c i = true) l →
  mapM (λ report_id, read c "report" {[ "id" := VStr report_id ]}) l
  = ((λ i, Call "report" Read {[ "id" := VStr i ]}) <$> l, Ok (fetched c <$> l)).
Proof.
  induction 1 as [|i l Hi _ IH]; [done|].
  cbn [mapM]. destruct (fetch_ok_fetched c i Hi) as [Hread _].
  rewrite (M_bind_read_ok _ _ _ _ _ Hread).
  rewrite (M_bind_ok _ _ _ _ IH). cbn [trace outcome fst snd mret M_ret].
  by rewrite app_nil_r.
Qed.

Lemma py_slice_to_take {A} (n : Z) (xs : list A) :
  ∃ k, py_slice_to n xs = take k xs.
Proof. unfold py_slice_to. destruct (0 <=? n)%Z; eauto. Qed.

Lemma mapM_format_report_all container_repr (rs : list pyval) :
  Forall (λ r, report_ok r = true) rs →
  mapM (format_report container_repr) rs = Ok (report_row container_repr <$> rs).
Proof.
  intros H. apply mapM_result_ok.
  eapply Forall_impl; [exact H|]. intros r Hr. by apply format_report_ok.
Qed.

Section ResolvedActor.
Context (container_repr : pyval → string).
Context (set_iter : gset string → list string).
Hypothesis set_iter_elements : ∀ s, set_iter s ≡ₚ elements s.
Context (_cti_client : OpenCTIApiClient).
Context (name : string) (limit : Z) (forward backward : list pyval).
Hypothesis resolved : resolved_actor _cti_client name forward backward.

(** The identifiers gathered from the two directions, as the loop over the
    set visits them. *)
Let visited : list string :=
  set_iter (list_to_set (endpoint_ids "to" forward ++ endpoint_ids "from" backward)).

Lemma visited_NoDup : NoDup visited.
Proof. unfold visited. rewrite set_iter_elements. apply NoDup_elements. Qed.

Lemma elem_of_visited (i : string) :
  i ∈ visited ↔ i ∈ endpoint_ids "to" forward ++ endpoint_ids "from" backward.
Proof.
  unfold visited. rewrite set_iter_elements, elem_of_elements.
  apply elem_of_list_to_set.
Qed.

Lemma visited_fetch_ok : Forall (λ i, fetch_ok _cti_client i = true) visited.
Proof.
  apply Forall_forall. intros i Hi%elem_of_visited.
  pose proof (forallb_Forall_eq _ _ (fetches_ok _ _ _ _ resolved)) as Hall.
  rewrite Forall_forall in Hall. by apply Hall.
Qed.

Lemma truthy_fetched_ok :
  Forall (λ r, report_ok r = true ∧ dated_ok r = true)
    (filter (λ r, truthy r = true) (fetched _cti_client <$> visited)).
Proof.
  apply Forall_forall. intros r [Hr Hin]%list_elem_of_filter.
  apply list_elem_of_fmap in Hin as (i & -> & Hi).
  pose proof visited_fetch_ok as Hall. rewrite Forall_forall in Hall.
  by apply (fetch_ok_fetched _ _ (Hall _ Hi)).
Qed.

Lemma resolved_path :
  ∃ sorted,
    outcome (get_latest_reports_mentioning_threat_actor
               container_repr set_iter _cti_client name limit)
    = Ok (report_row container_repr <$> py_slice_to limit sorted)
    ∧ sorted ≡ₚ filter (λ r, truthy r = true) (fetched _cti_client <$> visited)
    ∧ StronglySorted newer_first sorted.
Proof.
  destruct (actor_found _ _ _ _ resolved)
    as (actor & id & Hread & Hsome & Hid & Hforward & Hbackward).
  destruct (py_sort_published
              (filter (λ r, truthy r = true) (fetched _cti_client <$> visited)))
    as (sorted & Hsort & Hperm & Hsorted).
  { eapply Forall_impl; [apply truthy_fetched_ok|]. by intros r [_ ?]. }
  exists sorted. split; [|done].
  unfold get_latest_reports_mentioning_threat_actor, _find_entity_by_name.
  rewrite (M_bind_read_ok _ _ _ _ _ Hread). rewrite Hsome.
  rewrite (M_bind_lift_ok _ _ _ Hid).
  rewrite (M_bind_list_ok _ _ _ _ _ Hforward).
  rewrite (M_bind_lift_ok _ _ _ Hid).
  rewrite (M_bind_list_ok _ _ _ _ _ Hbackward).
  rewrite (M_bind_lift_ok _ _ _ (collect_ids_ok _ _ (forward_ok _ _ _ _ resolved))).
  rewrite (M_bind_lift_ok _ _ _ (collect_ids_ok _ _ (backward_ok _ _ _ _ resolved))).
  rewrite <- fmap_app.
  rewrite (M_bind_lift_ok _ _ _ (py_set_strings _)).
  fold visited.
  rewrite (M_bind_ok _ _ _ _ (mapM_read_ok _ _ visited_fetch_ok)).
  rewrite (M_bind_lift_ok _ _ _ Hsort).
  cbn [outcome trace fst snd mret M_ret mbind M_bind lift].
  rewrite mapM_format_report_all; [done|].
  destruct (py_slice_to_take limit sorted) as [k ->].
  apply Forall_take. rewrite Hperm.
  eapply Forall_impl; [apply truthy_fetched_ok|]. by intros r [? _].
Qed.
End ResolvedActor.

Lemma filter_fmap_comm {A B} (f : A → B) (P : B → Prop) `{∀ y, Decision (P y)}
    (l : list A) :
  filter P (f <$> l) = f <$> filter (λ x, P (f x)) l.
Proof.
  induction l as [|x l IH]; [done|].
  rewrite fmap_cons, !filter_cons, IH. by destruct (decide (P (f x))).
Qed.

Lemma filter_Forall_id {A} (P : A → Prop) `{∀ x, Decision (P x)} (l : list A) :
  Forall P l → filter P l = l.
Proof.
  induction 1 as [|x l Hx _ IH]; [done|].
  by rewrite filter_cons_True, IH.
Qed.

Lemma py_slice_to_fmap {A B} (f : A → B) (n : Z) (l : list A) :
  py_slice_to n (f <$> l) = f <$> py_slice_to n l.
Proof. unfold py_slice_to. rewrite length_fmap. by destruct (0 <=? n)%Z; rewrite fmap_take. Qed.

Lemma StronglySorted_lookup_lt {A} (R : A → A → Prop) (l : list A) i j a b :
  StronglySorted R l → l !! i = Some a → l !! j = Some b → i < j → R a b.
Proof.
  intros Hs. revert i j. induction Hs as [|x l Hs IH Hx]; intros i j Hi Hj Hlt; [done|].
  destruct j as [|j]; [lia|]. simpl in Hj. destruct i as [|i].
  - simpl in Hi. injection Hi as ->.
    rewrite Forall_forall in Hx. apply Hx. by eapply list_elem_of_lookup_2.
  - simpl in Hi. apply (IH i j); [done|done|lia].
Qed.

Lemma row_published_report_row container_repr (r : pyval) :
  row_published (report_row container_repr r) = pubdate r.
Proof.
  unfold row_published, report_row, pubdate. simpl.
  by simplify_map_eq.
Qed.

(** C6.  When the threat actor is found by its exact name, the re-fetched
    reports are returned in descending order of their publication date, where
    a report without one counts as dated by the empty string and so comes
    after every dated report, and the list is cut to its first [limit]
    elements. *)
Theorem reports_sorted_by_date (container_repr : pyval → string)
    (set_iter : gset string → list string) (_cti_client : OpenCTIApiClient)
    (name : string) (limit : Z) (forward backward : list pyval) :
  (∀ s, set_iter s ≡ₚ elements s) →
  resolved_actor _cti_client name forward backward →
  (0 ≤ limit)%Z →
  ∃ sorted,
    outcome (get_latest_reports_mentioning_threat_actor
               container_repr set_iter _cti_client name limit)
    = Ok (report_row container_repr <$> take (Z.to_nat limit) sorted)
    ∧ sorted ≡ₚ filter (λ r, truthy r = true)
                  (fetched _cti_client <$>
                     set_iter (forward_report_ids forward ∪ backward_report_ids backward))
    ∧ Forall (λ r, published_key r = Ok (VStr (pubdate r))
                   ∧ row_published (report_row container_repr r) = pubdate r
                   ∧ (fields r !! "published" = None ∨ fields r !! "published" = Some VNone →
                      pubdate r = "")) sorted
    ∧ StronglySorted (λ a b, String.leb (pubdate b) (pubdate a) = true) sorted
    ∧ ∀ i j a b, sorted !! i = Some a → sorted !! j = Some b →
        pubdate a = "" → pubdate b ≠ "" → j < i.
Proof.
  intros Hiter Hres Hlimit.
  destruct (resolved_path container_repr set_iter Hiter _cti_client name limit
              forward backward Hres) as (sorted & Hout & Hperm & Hsorted).
  unfold forward_report_ids, backward_report_ids. rewrite <- list_to_set_app_L.
  exists sorted. split; [by rewrite Hout, (py_slice_to_nonneg _ _ Hlimit)|].
  split; [done|]. split; [|split; [done|]].
  - rewrite Hperm.
    eapply Forall_impl;
      [apply (truthy_fetched_ok set_iter Hiter _cti_client name forward backward Hres)|].
    intros r [_ Hr]. split; [by apply published_key_ok|].
    split; [apply row_published_report_row|].
    unfold pubdate, published_or_empty. by intros [->| ->].
  - intros i j a b Hi Hj Ha Hb.
    destruct (decide (j < i)) as [|Hge]; [done|]. exfalso.
    destruct (decide (i = j)) as [->|Hne]; [congruence|].
    assert (Hlt : i < j) by lia.
    pose proof (StronglySorted_lookup_lt _ _ _ _ _ _ Hsorted Hi Hj Hlt) as Hab.
    unfold newer_first in Hab. rewrite Ha in Hab.
    by apply string_leb_empty in Hab.
Qed.

Lemma ex_resolved : resolved_actor ex_client "APT28" ex_forward ex_backward.
Proof.
  split; [|reflexivity..].
  exists (VDict {[ "id" := VStr "123"; "name" := VStr "APT28" ]}), (VStr "123").
  repeat split; reflexivity.
Defined.

Lemma reports_sorted_by_date_witness :
  ∃ sorted,
    outcome (get_latest_reports_mentioning_threat_actor ex_repr elements ex_client "APT28" 2)
    = Ok (report_row ex_repr <$> take 2 sorted)
    ∧ length sorted = 3
    ∧ StronglySorted (λ a b, String.leb (pubdate b) (pubdate a) = true) sorted.
Proof.
  destruct (reports_sorted_by_date ex_repr elements ex_client "APT28" 2
              ex_forward ex_backward (λ s, reflexivity _) ex_resolved ltac:(lia))
    as (sorted & Hout & Hperm & _ & Hsorted & _).
  exists sorted. split; [exact Hout|]. split; [|exact Hsorted].
  rewrite Hperm. reflexivity.
Defined.

(** C1, as amended.  When the threat actor is found by its exact name and the
    forward traversal yields the report identifiers A and the reverse
    traversal the identifiers B, the returned list is made of the rows of
    re-fetched reports whose identifiers are distinct members of A ∪ B: no
    report appears twice, whether or not A and B overlap.  Every member of
    A ∪ B appears exactly once when each re-fetch returns a report and the
    limit is at least the size of A ∪ B. *)
Theorem merged_reports_have_no_duplicate (container_repr : pyval → string)
    (set_iter : gset string → list string) (_cti_client : OpenCTIApiClient)
    (name : string) (limit : Z) (forward backward : list pyval) :
  (∀ s, set_iter s ≡ₚ elements s) →
  resolved_actor _cti_client name forward backward →
  ∃ kept : list string,
    outcome (get_latest_reports_mentioning_threat_actor
               container_repr set_iter _cti_client name limit)
    = Ok (report_row container_repr ∘ fetched _cti_client <$> kept)
    ∧ NoDup kept
    ∧ (∀ i, i ∈ kept → i ∈ forward_report_ids forward ∪ backward_report_ids backward)
    ∧ ((∀ i, i ∈ forward_report_ids forward ∪ backward_report_ids backward →
          truthy (fetched _cti_client i) = true) →
       (Z.of_nat (size (forward_report_ids forward ∪ backward_report_ids backward)) ≤ limit)%Z →
       kept ≡ₚ elements (forward_report_ids forward ∪ backward_report_ids backward)).
Proof.
  intros Hiter Hres.
  destruct (resolved_path container_repr set_iter Hiter _cti_client name limit
              forward backward Hres) as (sorted & Hout & Hperm & _).
  unfold forward_report_ids, backward_report_ids. rewrite <- list_to_set_app_L.
  set (ids := list_to_set (endpoint_ids "to" forward ++ endpoint_ids "from" backward)
              : gset string) in *.
  rewrite filter_fmap_comm in Hperm.
  set (live := filter (λ i, truthy (fetched _cti_client i) = true) (set_iter ids)) in *.
  apply Permutation_map_inv in Hperm as (order & -> & Horder).
  assert (Hnodup : NoDup order).
  { rewrite <- Horder. apply NoDup_filter. rewrite Hiter. apply NoDup_elements. }
  exists (py_slice_to limit order). split; [|split; [|split]].
  - rewrite Hout. change (map (fetched _cti_client) order)
      with (fetched _cti_client <$> order).
    by rewrite py_slice_to_fmap, <- list_fmap_compose.
  - destruct (py_slice_to_take limit order) as [k ->].
    eapply sublist_NoDup; [done|apply sublist_take].
  - intros i Hi. destruct (py_slice_to_take limit order) as [k Hk].
    rewrite Hk in Hi. apply elem_of_take in Hi as (n & Hn%list_elem_of_lookup_2 & _).
    rewrite <- Horder in Hn. apply list_elem_of_filter in Hn as [_ Hn].
    rewrite Hiter in Hn. by apply elem_of_elements in Hn.
  - intros Hall Hsize.
    assert (Hlive : live = set_iter ids).
    { apply filter_Forall_id. apply Forall_forall. intros i Hi. apply Hall.
      rewrite Hiter in Hi. by apply elem_of_elements in Hi. }
    rewrite Hlive in Horder.
    assert (Hlen : length order = size ids).
    { rewrite <- Horder, Hiter. reflexivity. }
    rewrite py_slice_to_nonneg by lia.
    rewrite take_ge by lia.
    by rewrite <- Horder, Hiter.
Qed.

Lemma merged_reports_have_no_duplicate_witness :
  ∃ kept : list string,
    outcome (get_latest_reports_mentioning_threat_actor ex_repr elements ex_client "APT28" 10)
    = Ok (report_row ex_repr ∘ fetched ex_client <$> kept)
    ∧ NoDup kept
    ∧ kept ≡ₚ elements (forward_report_ids ex_forward ∪ backward_report_ids ex_backward).
Proof.
  destruct (merged_reports_have_no_duplicate ex_repr elements ex_client "APT28" 10
              ex_forward ex_backward (λ s, reflexivity _) ex_resolved)
    as (kept & Hout & Hnodup & _ & Hall).
  exists kept. split; [exact Hout|]. split; [exact Hnodup|].
  apply Hall.
  - intros i Hi. apply elem_of_elements in Hi.
    vm_compute in Hi.
    repeat (apply elem_of_cons in Hi as [->|Hi]; [reflexivity|]).
    apply elem_of_nil in Hi. destruct Hi.
  - vm_compute. discriminate.
Defined.

(** C1, as stated, fails when the limit cuts the list and when a re-fetch
    returns nothing.  For APT28, A = {r1, r2} and B = {r2, r3} share r2, and
    with the limit 1 the tool returns the row of r2 alone: r1 is not in the
    result.  For APT29, A = {r1, r4} and B = {r1} share r1, the platform
    returns no report for r4, and the tool returns the row of r1 alone. *)
Lemma merged_reports_not_all_present :
  (resolved_actor ex_client "APT28" ex_forward ex_backward
   ∧ "r2" ∈ forward_report_ids ex_forward ∩ backward_report_ids ex_backward
   ∧ size (forward_report_ids ex_forward ∪ backward_report_ids ex_backward) = 3
   ∧ "r1" ∈ forward_report_ids ex_forward ∪ backward_report_ids ex_backward
   ∧ fetched ex_client "r1" = ex_r1
   ∧ outcome (get_latest_reports_mentioning_threat_actor
                ex_repr elements ex_client "APT28" 1)
     = Ok [report_row ex_repr ex_r2]
   ∧ report_row ex_repr ex_r1 ∉ [report_row ex_repr ex_r2])
  ∧ (resolved_actor ex_client "APT29" ex_forward_29 ex_backward_29
     ∧ "r1" ∈ forward_report_ids ex_forward_29 ∩ backward_report_ids ex_backward_29
     ∧ size (forward_report_ids ex_forward_29 ∪ backward_report_ids ex_backward_29) = 2
     ∧ "r4" ∈ forward_report_ids ex_forward_29 ∪ backward_report_ids ex_backward_29
     ∧ fetch_report ex_client "r4" = Ok VNone
     ∧ outcome (get_latest_reports_mentioning_threat_actor
                  ex_repr elements ex_client "APT29" 10)
       = Ok [report_row ex_repr ex_r1]).
Proof.
  split.
  - split; [exact ex_resolved|].
    split; [by vm_compute|]. split; [reflexivity|]. split; [by vm_compute|].
    split; [reflexivity|]. split; [reflexivity|].
    intros Hin. apply list_elem_of_singleton in Hin.
    apply (f_equal (λ row, fields row !! "stix_id")) in Hin.
    vm_compute in Hin. discriminate.
  - split.
    { split; [|reflexivity..].
      exists (VDict {[ "id" := VStr "124"; "name" := VStr "APT29" ]}), (VStr "124").
      repeat split; reflexivity. }
    split; [by vm_compute|]. split; [reflexivity|]. split; [by vm_compute|].
    split; reflexivity.
Qed.

(** * Further properties *)

(** ** The formatters *)

Lemma mapM_as_str_fail (xs : list pyval) :
  forallb is_str xs = false → mapM as_str xs = Raise TypeError.
Proof.
  induction xs as [|x xs IH]; [done|].
  cbn [forallb mapM]. destruct x; try done.
  simpl. intros H. by rewrite (IH H).
Qed.

Lemma py_join_total (sep : string) (xs : list pyval) :
  py_join sep xs
  = if forallb is_str xs then Ok (String.concat sep (str_of <$> xs)) else Raise TypeError.
Proof.
  unfold py_join. destruct (forallb is_str xs) eqn:H.
  - by rewrite mapM_as_str_ok.
  - by rewrite mapM_as_str_fail.
Qed.

(** X1.  On a list, [_format_aliases] returns the elements joined by ", "
    when every element is a string, and raises [TypeError] as soon as one
    element is not: a list is never formatted by its string representation
    and a null alias is never skipped. *)
Theorem format_aliases_list_total (container_repr : pyval → string) (xs : list pyval) :
  _format_aliases container_repr (VList xs)
  = if forallb is_str xs then Ok (String.concat ", " (str_of <$> xs))
    else Raise TypeError.
Proof.
  destruct xs as [|x xs]; [done|].
  unfold _format_aliases. cbn [truthy negb]. apply py_join_total.
Qed.

Lemma labels_str_of_total container_repr (l : pyval) :
  labels_str_of container_repr (py_or l (VList []))
  = if labels_ok l then Ok (labels_text container_repr l) else Raise TypeError.
Proof.
  destruct (labels_ok l) eqn:Hl; [by apply labels_str_of_ok|].
  destruct l as [| | | | xs |]; try done.
  destruct xs as [|x xs]; [done|].
  unfold py_or. cbn [truthy labels_str_of]. rewrite py_join_total.
  unfold labels_ok in Hl. by rewrite Hl.
Qed.

Lemma format_aliases_total container_repr (a : pyval) :
  _format_aliases container_repr a
  = if labels_ok a then Ok (labels_text container_repr a) else Raise TypeError.
Proof.
  destruct (is_list a) eqn:Hlist.
  - destruct a as [| | | | xs |]; try done.
    destruct xs as [|x xs]; [done|].
    unfold _format_aliases. cbn [truthy negb]. rewrite py_join_total.
    unfold labels_ok, labels_text. by destruct (forallb is_str (x :: xs)).
  - unfold _format_aliases, labels_text.
    destruct a; try done; by destruct (truthy _).
Qed.

Lemma format_entity_run container_repr (entity : pyval) :
  _format_entity_with_aliases container_repr entity
  = if negb (is_dict entity) then Raise AttributeError
    else if entity_ok entity then Ok (entity_row container_repr entity)
    else Raise TypeError.
Proof.
  destruct entity as [| | | | |d]; try done.
  unfold _format_entity_with_aliases, entity_row, entity_ok. simpl.
  rewrite format_aliases_total. by destruct (labels_ok _).
Qed.

(** X2.  [_format_entity_with_aliases] raises [AttributeError] on a value
    that is not a dictionary and [TypeError] on aliases that hold a value
    that is not a string; on every other entity it returns a row of exactly
    the four fields, in which the aliases are a string and the description is
    not null, while a stix_id or name that the platform gave as null stays
    null. *)
Theorem format_entity_total (container_repr : pyval → string) (entity : pyval) :
  _format_entity_with_aliases container_repr entity
  = (if negb (is_dict entity) then Raise AttributeError
     else if entity_ok entity then Ok (entity_row container_repr entity)
     else Raise TypeError)
  ∧ dom (fields (entity_row container_repr entity))
    = ({[ "stix_id"; "name"; "aliases"; "description" ]} : gset string)
  ∧ is_str (default VNone (fields (entity_row container_repr entity) !! "aliases")) = true
  ∧ fields (entity_row container_repr entity) !! "description" ≠ Some VNone
  ∧ (fields (entity_row container_repr entity) !! "stix_id" = Some VNone
     ↔ fields entity !! "stix_id" = Some VNone).
Proof.
  split; [|split; [|split; [|split]]].
  - apply format_entity_run.
  - unfold entity_row. simpl. rewrite !dom_insert_L, dom_singleton_L. set_solver.
  - unfold entity_row. simpl. by simplify_map_eq.
  - unfold entity_row. simpl. simplify_map_eq.
    unfold py_or. destruct (truthy _) eqn:Ht; [|done].
    intros [= H]. by rewrite H in Ht.
  - unfold entity_row. simpl. simplify_map_eq.
    destruct (fields entity !! "stix_id") as [v|]; simpl; [|split; done].
    split; congruence.
Qed.

(** X3.  [format_report], the loop body of the report lists, raises
    [AttributeError] on a value that is not a dictionary and [TypeError] on
    labels that hold a value that is not a string; on every other report it
    returns a row of exactly the five fields, in which the labels are a
    string and neither the publication date nor the description is null,
    while a stix_id that the platform gave as null stays null. *)
Theorem format_report_total (container_repr : pyval → string) (report : pyval) :
  format_report container_repr report
  = (if negb (is_dict report) then Raise AttributeError
     else if report_ok report then Ok (report_row container_repr report)
     else Raise TypeError)
  ∧ dom (fields (report_row container_repr report))
    = ({[ "stix_id"; "name"; "published"; "labels"; "description" ]} : gset string)
  ∧ is_str (default VNone (fields (report_row container_repr report) !! "labels")) = true
  ∧ fields (report_row container_repr report) !! "published" ≠ Some VNone
  ∧ fields (report_row container_repr report) !! "description" ≠ Some VNone
  ∧ (fields (report_row container_repr report) !! "stix_id" = Some VNone
     ↔ fields report !! "stix_id" = Some VNone).
Proof.
  split; [|split; [|split; [|split; [|split]]]].
  - destruct report as [| | | | |d]; try done.
    unfold format_report, report_row, report_ok, published_or_empty. simpl.
    rewrite labels_str_of_total. by destruct (labels_ok _).
  - unfold report_row. simpl. rewrite !dom_insert_L, dom_singleton_L. set_solver.
  - unfold report_row. simpl. by simplify_map_eq.
  - unfold report_row, published_or_empty. simpl. simplify_map_eq.
    unfold py_or. destruct (truthy _) eqn:Ht; [|done].
    intros [= H]. by rewrite H in Ht.
  - unfold report_row. simpl. simplify_map_eq.
    unfold py_or. destruct (truthy _) eqn:Ht; [|done].
    intros [= H]. by rewrite H in Ht.
  - unfold report_row. simpl. simplify_map_eq.
    destruct (fields report !! "stix_id") as [v|]; simpl; [|split; done].
    split; congruence.
Qed.

(** ** The search and listing tools *)

Lemma M_bind_list_any {B} c (f : list pyval → result B) sub kw :
  list_all c sub kw ≫= (λ xs, lift (f xs))
  = ([Call sub ListAll kw], client_list c sub kw ≫= f).
Proof.
  unfold list_all, lift, mbind at 1, M_bind. cbn [fst snd].
  by destruct (client_list c sub kw).
Qed.

Lemma mapM_format_entity_ok container_repr (hits : list pyval) :
  forallb entity_ok hits = true →
  mapM (_format_entity_with_aliases container_repr) hits
  = Ok (entity_row container_repr <$> hits).
Proof.
  intros H. apply mapM_result_ok.
  eapply Forall_impl; [by apply forallb_Forall_eq|].
  intros e He. rewrite format_entity_run.
  rewrite He. by destruct e.
Qed.

(** X4.  Every entity search tool makes one call, [list] on its own
    sub-client with the search term as the only argument (no cap, no
    ordering), and returns what the call gives, formatted: an exception of
    the client is passed on, and entity records give one four-field row per
    hit, in the order of the client. *)
Theorem entity_search_is_one_list_call (container_repr : pyval → string)
    (_cti_client : OpenCTIApiClient) (sub : string)
    (tool : string → M (list pyval)) (search_term : string) :
  (sub, tool) ∈ entity_search_tools container_repr _cti_client →
  trace (tool search_term) = [Call sub ListAll {[ "search" := VStr search_term ]}]
  ∧ outcome (tool search_term)
    = client_list _cti_client sub {[ "search" := VStr search_term ]}
        ≫= mapM (_format_entity_with_aliases container_repr)
  ∧ (∀ e, client_list _cti_client sub {[ "search" := VStr search_term ]} = Raise e →
       outcome (tool search_term) = Raise e)
  ∧ (∀ hits, client_list _cti_client sub {[ "search" := VStr search_term ]} = Ok hits →
       forallb entity_ok hits = true →
       outcome (tool search_term) = Ok (entity_row container_repr <$> hits)
       ∧ (∀ rows, outcome (tool search_term) = Ok rows → length rows = length hits)).
Proof.
  intros Hin.
  assert (Htool : tool = search_entities container_repr _cti_client sub).
  { unfold entity_search_tools in Hin. each_tool Hin ltac:(reflexivity). }
  subst tool. unfold search_entities. rewrite M_bind_list_any.
  cbn [trace outcome fst snd]. split; [done|]. split; [done|]. split.
  - by intros e ->.
  - intros hits -> Hok. cbn [mbind result_bind].
    rewrite (mapM_format_entity_ok _ _ Hok). split; [done|].
    intros rows [= <-]. by rewrite length_fmap.
Qed.

Lemma entity_search_is_one_list_call_witness :
  outcome (search_malware ex_repr ex_catalog "agent")
  = Ok (entity_row ex_repr <$> ex_malware_hits).
Proof.
  apply (proj1 (proj2 (proj2 (proj2
           (entity_search_is_one_list_call ex_repr ex_catalog "malware" _ "agent"
              (list_elem_of_here _ _)))) ex_malware_hits eq_refl eq_refl)).
Defined.

(** X5.  [_find_entity_by_filter] makes one [list] call and returns its
    result as it is.  The call always carries the filters and the cap; it
    carries the sort field and the sort direction together, and only when a
    sort field is supplied: with no sort field, or an empty one, the
    direction that the caller passed is dropped. *)
Theorem find_entity_by_filter_call (_cti_client : OpenCTIApiClient)
    (entity_type : string) (filters order_by : pyval) (order_mode : string) (limit : Z) :
  ∃ kw,
    _find_entity_by_filter _cti_client entity_type filters order_by order_mode limit
    = ([Call entity_type ListAll kw], client_list _cti_client entity_type kw)
    ∧ kw !! "filters" = Some filters
    ∧ kw !! "first" = Some (VInt limit)
    ∧ kw !! "orderBy" = (if truthy order_by then Some order_by else None)
    ∧ kw !! "orderMode" = (if truthy order_by then Some (VStr order_mode) else None)
    ∧ dom kw = (if truthy order_by
                then {[ "filters"; "first"; "orderBy"; "orderMode" ]}
                else {[ "filters"; "first" ]} : gset string).
Proof.
  unfold _find_entity_by_filter, list_all.
  destruct (truthy order_by); eexists; (split; [reflexivity|]);
    repeat split; try (by simplify_map_eq);
    rewrite !dom_insert_L, dom_singleton_L; set_solver.
Qed.

(** X6.  [get_latest_reports] and [get_latest_reports_by_sector] make one
    [list] call on the reports, ordered by publication date in descending
    order and capped at the limit, and format every report that the call
    returns, in its order: the server neither sorts nor cuts the list
    itself, so the result is as long as the answer of the client. *)
Theorem latest_reports_are_listed_as_returned (container_repr : pyval → string)
    (_cti_client : OpenCTIApiClient) (sector_name : string) (limit : Z) :
  let latest : gmap string pyval :=
    {[ "orderBy" := VStr "published"; "orderMode" := VStr "desc";
       "first" := VInt limit ]} in
  get_latest_reports container_repr _cti_client limit
  = ([Call "report" ListAll latest],
     client_list _cti_client "report" latest ≫= mapM (format_report container_repr))
  ∧ get_latest_reports_by_sector container_repr _cti_client sector_name limit
    = ([Call "report" ListAll (report_search_kwargs sector_name limit)],
       client_list _cti_client "report" (report_search_kwargs sector_name limit)
         ≫= mapM (format_report container_repr))
  ∧ (∀ reports, client_list _cti_client "report" latest = Ok reports →
       forallb report_ok reports = true →
       outcome (get_latest_reports container_repr _cti_client limit)
       = Ok (report_row container_repr <$> reports))
  ∧ (∀ reports,
       client_list _cti_client "report" (report_search_kwargs sector_name limit)
         = Ok reports →
       forallb report_ok reports = true →
       outcome (get_latest_reports_by_sector container_repr _cti_client sector_name limit)
       = Ok (report_row container_repr <$> reports)).
Proof.
  intros latest.
  assert (H1 : get_latest_reports container_repr _cti_client limit
               = ([Call "report" ListAll latest],
                  client_list _cti_client "report" latest
                    ≫= mapM (format_report container_repr))).
  { unfold get_latest_reports. by rewrite M_bind_list_any. }
  assert (H2 : get_latest_reports_by_sector container_repr _cti_client sector_name limit
               = ([Call "report" ListAll (report_search_kwargs sector_name limit)],
                  client_list _cti_client "report" (report_search_kwargs sector_name limit)
                    ≫= mapM (format_report container_repr))).
  { unfold get_latest_reports_by_sector. by rewrite M_bind_list_any. }
  split; [done|]. split; [done|]. split.
  - intros reports Hlist Hok. rewrite H1. cbn [outcome snd]. rewrite Hlist.
    by apply mapM_format_report_ok.
  - intros reports Hlist Hok. rewrite H2. cbn [outcome snd]. rewrite Hlist.
    by apply mapM_format_report_ok.
Qed.

Lemma latest_reports_are_listed_as_returned_witness :
  outcome (get_latest_reports ex_repr ex_catalog 1)
  = Ok (report_row ex_repr <$> [ex_r3; ex_r1; ex_r2]).
Proof.
  apply (proj1 (proj2 (proj2 (latest_reports_are_listed_as_returned
                                ex_repr ex_catalog "x" 1)))
           [ex_r3; ex_r1; ex_r2] eq_refl eq_refl).
Defined.

(** X18.  [search_reports] makes one [list] call on the reports with the
    search term as the only argument, without ordering or cap, and returns
    one row per report in the order of the client.  Its rows are those of
    the other report lists: on the same answer of the client it returns what
    [get_latest_reports_by_sector] returns. *)
Theorem search_reports_rows (container_repr : pyval → string)
    (_cti_client : OpenCTIApiClient) (search_term : string) (limit : Z) :
  search_reports container_repr _cti_client search_term
  = ([Call "report" ListAll {[ "search" := VStr search_term ]}],
     client_list _cti_client "report" {[ "search" := VStr search_term ]}
       ≫= mapM (format_report container_repr))
  ∧ (∀ reports,
       client_list _cti_client "report" {[ "search" := VStr search_term ]} = Ok reports →
       forallb report_ok reports = true →
       outcome (search_reports container_repr _cti_client search_term)
       = Ok (report_row container_repr <$> reports))
  ∧ (client_list _cti_client "report" {[ "search" := VStr search_term ]}
     = client_list _cti_client "report" (report_search_kwargs search_term limit) →
     outcome (search_reports container_repr _cti_client search_term)
     = outcome (get_latest_reports_by_sector container_repr _cti_client search_term limit)).
Proof.
  assert (Hrun : search_reports container_repr _cti_client search_term
                 = ([Call "report" ListAll {[ "search" := VStr search_term ]}],
                    client_list _cti_client "report" {[ "search" := VStr search_term ]}
                      ≫= mapM (format_report container_repr))).
  { unfold search_reports. rewrite M_bind_list_any. f_equal.
    destruct (client_list _ _ _) as [reports|e]; [|done]. cbn [mbind result_bind].
    induction reports as [|r reports IH]; [done|].
    cbn [mapM]. by rewrite format_search_hit_eq, IH. }
  split; [done|]. split.
  - intros reports Hlist Hok. rewrite Hrun. cbn [outcome snd]. rewrite Hlist.
    by apply mapM_format_report_ok.
  - intros Hsame. rewrite Hrun.
    unfold get_latest_reports_by_sector. rewrite M_bind_list_any.
    cbn [outcome snd]. by rewrite Hsame.
Qed.

Lemma search_reports_rows_witness :
  outcome (search_reports ex_repr ex_archive "Three")
  = Ok (report_row ex_repr <$> [ex_r3; ex_r1])
  ∧ outcome (search_reports ex_repr ex_archive "Three")
    = outcome (get_latest_reports_by_sector ex_repr ex_archive "Three" 5).
Proof.
  split.
  - apply (proj1 (proj2 (search_reports_rows ex_repr ex_archive "Three" 5))
             [ex_r3; ex_r1] eq_refl eq_refl).
  - apply (proj2 (proj2 (search_reports_rows ex_repr ex_archive "Three" 5)) eq_refl).
Defined.

(** ** The detail view of a report *)

(** X7.  For a found report, [get_report_details] returns the row that the
    report lists show for the same record, but for the publication date,
    which it returns as the platform gave it.  The two rows are the same
    unless the publication date is present and falsy without being the empty
    string (null, 0, false, an empty list or dictionary). *)
Theorem report_details_vs_list_row (container_repr : pyval → string)
    (_cti_client : OpenCTIApiClient) (report_title : string) (d : gmap string pyval) :
  client_read _cti_client "report" {[ "filters" := name_filters report_title ]}
    = Ok (VDict d) →
  labels_ok (default VNone (d !! "labels")) = true →
  outcome (get_report_details container_repr _cti_client report_title)
  = Ok (details_row container_repr (VDict d))
  ∧ format_report container_repr (VDict d) = Ok (report_row container_repr (VDict d))
  ∧ (∀ k, k ≠ "published" →
       fields (details_row container_repr (VDict d)) !! k
       = fields (report_row container_repr (VDict d)) !! k)
  ∧ (details_row container_repr (VDict d) = report_row container_repr (VDict d)
     ↔ d !! "published" = None
       ∨ ∃ v, d !! "published" = Some v ∧ (truthy v = true ∨ v = VStr "")).
Proof.
  intros Hread Hlabels. split; [|split; [|split]].
  - unfold get_report_details, _find_entity_by_name.
    rewrite (M_bind_read_ok _ _ _ _ _ Hread). cbn [is_none outcome snd].
    rewrite M_bind_get.
    rewrite (M_bind_lift_ok _ _ _ (labels_str_of_ok container_repr _ Hlabels)).
    by rewrite !M_bind_get.
  - by apply format_report_ok.
  - intros k Hk. unfold details_row, report_row. cbn [fields].
    rewrite !lookup_insert. repeat case_decide; congruence.
  - unfold details_row, report_row, published_or_empty, py_or. cbn [fields]. split.
    + intros Heq. apply (f_equal (λ r, fields r !! "published")) in Heq.
      cbn [fields] in Heq. simplify_map_eq.
      destruct (d !! "published") as [v|]; [right|by left].
      exists v. split; [done|]. simpl in Heq.
      destruct (truthy v); [by left|]. right. congruence.
    + intros [-> |(v & -> & [Ht | ->])]; [done| |done].
      simpl. by rewrite Ht.
Qed.

Lemma report_details_vs_list_row_witness :
  outcome (get_report_details ex_repr ex_archive "Odd")
  = Ok (details_row ex_repr ex_odd_report)
  ∧ fields (details_row ex_repr ex_odd_report) !! "published" = Some (VInt 0)
  ∧ fields (report_row ex_repr ex_odd_report) !! "published" = Some (VStr "").
Proof.
  split; [|split; reflexivity].
  apply (proj1 (report_details_vs_list_row ex_repr ex_archive "Odd"
                  (fields ex_odd_report) eq_refl eq_refl)).
Defined.

(** ** The traversal tools: composition and failures *)

Lemma mapM_result_total {A B} (f : A → result B) (g : A → B) (p : A → bool)
    (e : exn) (l : list A) :
  (∀ x, f x = if p x then Ok (g x) else Raise e) →
  mapM f l = if forallb p l then Ok (g <$> l) else Raise e.
Proof.
  intros Hf. induction l as [|x l IH]; [done|].
  cbn [mapM forallb]. rewrite Hf. destruct (p x); [|done].
  cbn [mbind result_bind andb]. rewrite IH. by destruct (forallb p l).
Qed.

Lemma format_relationship_target_total (rel : pyval) :
  _format_relationship_target rel
  = if rel_ok "to" rel then Ok (endpoint_record (endpoint "to" rel))
    else Raise AttributeError.
Proof.
  destruct (rel_ok "to" rel) eqn:Hok; [by apply format_relationship_target_ok|].
  destruct rel as [| | | | |r]; try done.
  unfold rel_ok in Hok. unfold _format_relationship_target. simpl.
  by destruct (r !! "to") as [[]|].
Qed.

Lemma format_relationship_source_total (rel : pyval) :
  format_relationship_source rel
  = if rel_ok "from" rel then Ok (endpoint_record (endpoint "from" rel))
    else Raise AttributeError.
Proof.
  destruct (rel_ok "from" rel) eqn:Hok; [by apply format_relationship_source_ok|].
  destruct rel as [| | | | |r]; try done.
  unfold rel_ok in Hok. unfold format_relationship_source. simpl.
  by destruct (r !! "from") as [[]|].
Qed.

Lemma get_related_entities_run _cti_client id types :
  _get_related_entities _cti_client id types
  = ([Call "stix_core_relationship" ListAll
        {[ "fromId" := id; "toTypes" := VList (VStr <$> types) ]}],
     client_list _cti_client "stix_core_relationship"
       {[ "fromId" := id; "toTypes" := VList (VStr <$> types) ]}
       ≫= λ rels, if forallb (rel_ok "to") rels
                  then Ok (endpoint_record ∘ endpoint "to" <$> rels)
                  else Raise AttributeError).
Proof.
  unfold _get_related_entities. rewrite M_bind_list_any. f_equal.
  destruct (client_list _ _ _) as [rels|e]; [|done]. cbn [mbind result_bind].
  apply mapM_result_total, format_relationship_target_total.
Qed.

Lemma get_reverse_related_entities_run _cti_client id types :
  _get_reverse_related_entities _cti_client id types
  = ([Call "stix_core_relationship" ListAll
        {[ "toId" := id; "fromTypes" := VList (VStr <$> types) ]}],
     client_list _cti_client "stix_core_relationship"
       {[ "toId" := id; "fromTypes" := VList (VStr <$> types) ]}
       ≫= λ rels, if forallb (rel_ok "from") rels
                  then Ok (endpoint_record ∘ endpoint "from" <$> rels)
                  else Raise AttributeError).
Proof.
  unfold _get_reverse_related_entities. rewrite M_bind_list_any. f_equal.
  destruct (client_list _ _ _) as [rels|e]; [|done]. cbn [mbind result_bind].
  apply mapM_result_total, format_relationship_source_total.
Qed.

Lemma related_of_found _cti_client etype name ttype entity id :
  client_read _cti_client etype {[ "filters" := name_filters name ]} = Ok entity →
  is_none entity = false →
  py_getitem entity "id" = Ok id →
  related_of _cti_client etype name [ttype]
  = ([Call etype Read {[ "filters" := name_filters name ]};
      Call "stix_core_relationship" ListAll
        {[ "fromId" := id; "toTypes" := VList [VStr ttype] ]}],
     client_list _cti_client "stix_core_relationship"
       {[ "fromId" := id; "toTypes" := VList [VStr ttype] ]}
       ≫= λ rels, if forallb (rel_ok "to") rels
                  then Ok (endpoint_record ∘ endpoint "to" <$> rels)
                  else Raise AttributeError).
Proof.
  intros Hread Hsome Hid. unfold related_of, _find_entity_by_name.
  rewrite (M_bind_read_ok _ _ _ _ _ Hread), Hsome.
  rewrite (M_bind_lift_ok _ _ _ Hid).
  by rewrite (get_related_entities_run _ id [ttype]).
Qed.

Lemma related_of_run _cti_client etype name ttype :
  related_of _cti_client etype name [ttype]
  = (Call etype Read {[ "filters" := name_filters name ]}
       :: match client_read _cti_client etype {[ "filters" := name_filters name ]} with
          | Ok entity =>
              if is_none entity then []
              else match py_getitem entity "id" with
                   | Ok id => [Call "stix_core_relationship" ListAll
                                 {[ "fromId" := id; "toTypes" := VList [VStr ttype] ]}]
                   | Raise _ => []
                   end
          | Raise _ => []
          end,
     entity ← client_read _cti_client etype {[ "filters" := name_filters name ]};
     if is_none entity then Ok []
     else
       id ← py_getitem entity "id";
       rels ← client_list _cti_client "stix_core_relationship"
                {[ "fromId" := id; "toTypes" := VList [VStr ttype] ]};
       if forallb (rel_ok "to") rels
       then Ok (endpoint_record ∘ endpoint "to" <$> rels)
       else Raise AttributeError).
Proof.
  destruct (client_read _cti_client etype _) as [entity|e] eqn:Hread.
  - destruct (is_none entity) eqn:Hnone.
    + destruct entity; try done. by rewrite (related_of_not_found _ _ _ _ Hread).
    + destruct (py_getitem entity "id") as [id|e] eqn:Hid.
      * rewrite (related_of_found _ _ _ _ _ _ Hread Hnone Hid).
        cbn [mbind result_bind]. by rewrite Hnone, Hid.
      * unfold related_of, _find_entity_by_name.
        rewrite (M_bind_read_ok _ _ _ _ _ Hread), Hnone.
        rewrite (M_bind_lift_raise _ _ _ Hid).
        cbn [mbind result_bind trace outcome fst snd]. by rewrite Hnone, Hid.
  - unfold related_of, _find_entity_by_name, read, mbind at 1, M_bind.
    cbn [fst snd]. by rewrite Hread.
Qed.

Ltac each_target Hin tac :=
  repeat (apply elem_of_cons in Hin as [[= -> -> ->]|Hin]; [tac|]);
  apply elem_of_nil in Hin; destruct Hin.

Lemma forward_tool_is_related_of _cti_client etype ttype tool :
  (etype, ttype, tool) ∈ forward_tool_targets _cti_client →
  tool = λ name, related_of _cti_client etype name [ttype].
Proof.
  intros Hin. unfold forward_tool_targets in Hin.
  each_target Hin ltac:(reflexivity).
Qed.

(** X8.  Every forward traversal tool whose entity is found makes two calls:
    the lookup by name on its sub-client, then one listing of the
    relationships from the internal identifier of the entity to its own target
    type.  It returns the projection of all the relationships, or raises
    [AttributeError] when one of them is not a relationship record: it never
    returns a part of the list. *)
Theorem forward_tool_found (_cti_client : OpenCTIApiClient)
    (etype ttype : string) (tool : string → M (list pyval))
    (name : string) (entity id : pyval) (rels : list pyval) :
  (etype, ttype, tool) ∈ forward_tool_targets _cti_client →
  client_read _cti_client etype {[ "filters" := name_filters name ]} = Ok entity →
  is_none entity = false →
  py_getitem entity "id" = Ok id →
  client_list _cti_client "stix_core_relationship"
    {[ "fromId" := id; "toTypes" := VList [VStr ttype] ]} = Ok rels →
  tool name
  = ([Call etype Read {[ "filters" := name_filters name ]};
      Call "stix_core_relationship" ListAll
        {[ "fromId" := id; "toTypes" := VList [VStr ttype] ]}],
     if forallb (rel_ok "to") rels
     then Ok (endpoint_record ∘ endpoint "to" <$> rels)
     else Raise AttributeError).
Proof.
  intros Hin Hread Hsome Hid Hlist.
  rewrite (forward_tool_is_related_of _ _ _ _ Hin).
  rewrite (related_of_found _ _ _ _ _ _ Hread Hsome Hid). by rewrite Hlist.
Qed.

Lemma forward_tool_found_witness :
  get_malwares_of_intrusion_set ex_client "APT28"
  = ([Call "intrusion_set" Read {[ "filters" := name_filters "APT28" ]};
      Call "stix_core_relationship" ListAll
        {[ "fromId" := VStr "456"; "toTypes" := VList [VStr "Malware"] ]}],
     Ok [VDict {[ "stix_id" := VStr "malware--111"; "name" := VStr "X-Agent" ]};
         VDict {[ "stix_id" := VStr "malware--222"; "name" := VStr "" ]}])
  ∧ outcome (get_malwares_of_report ex_archive "Found") = Raise AttributeError.
Proof.
  split.
  - apply (forward_tool_found ex_client "intrusion_set" "Malware" _ "APT28"
             (VDict {[ "id" := VStr "456"; "name" := VStr "APT28" ]}) (VStr "456")
             ex_malwares (list_elem_of_here _ _)); reflexivity.
  - apply (f_equal outcome
             (forward_tool_found ex_archive "report" "Malware"
                (get_malwares_of_report ex_archive) "Found"
                (VDict {[ "id" := VStr "9" ]}) (VStr "9")
                [ex_rel "to" (ex_endpoint "m1" "malware--111" "X-Agent");
                 ex_rel "to" VNone]
                ltac:(do 4 apply list_elem_of_further; apply list_elem_of_here)
                eq_refl eq_refl eq_refl eq_refl)).
Defined.



Lemma sector_tool_is_targeting_sector _cti_client from_type tool :
  (from_type, tool) ∈ sector_tools _cti_client →
  tool = targeting_sector _cti_client from_type.
Proof. intros Hin. unfold sector_tools in Hin. each_tool Hin ltac:(reflexivity). Qed.

Lemma sector_traversal_without_id _cti_client from_type limit (d : gmap string pyval) :
  d !! "id" = None →
  sector_traversal _cti_client from_type limit (VDict d) = ([], Raise (KeyError "id")).
Proof.
  intros Hd. unfold sector_traversal.
  apply M_bind_lift_raise. simpl. by rewrite Hd.
Qed.

(** X9.  A found entity without an internal identifier stops a tool with
    [KeyError] before any relationship is listed: the forward traversal tools
    and the tool of the reports that mention a threat actor after their
    lookup, the sector tools after the read or after the search that found
    the sector.  An empty dictionary is such an entity: it is not [None], so
    it triggers no fallback either. *)
Theorem found_without_id_raises (container_repr : pyval → string)
    (set_iter : gset string → list string) (_cti_client : OpenCTIApiClient)
    (name : string) (limit : Z) (d : gmap string pyval) :
  d !! "id" = None →
  (∀ etype ttype tool, (etype, ttype, tool) ∈ forward_tool_targets _cti_client →
     client_read _cti_client etype {[ "filters" := name_filters name ]} = Ok (VDict d) →
     tool name
     = ([Call etype Read {[ "filters" := name_filters name ]}], Raise (KeyError "id")))
  ∧ (client_read _cti_client "threat_actor" {[ "filters" := name_filters name ]}
       = Ok (VDict d) →
     get_latest_reports_mentioning_threat_actor container_repr set_iter _cti_client name limit
     = ([Call "threat_actor" Read {[ "filters" := name_filters name ]}],
        Raise (KeyError "id")))
  ∧ (∀ from_type tool, (from_type, tool) ∈ sector_tools _cti_client →
     (client_read _cti_client "identity" {[ "filters" := name_filters name ]}
        = Ok (VDict d) →
      tool name limit = ([sector_read_call name], Raise (KeyError "id")))
     ∧ (∀ rest,
          client_read _cti_client "identity" {[ "filters" := name_filters name ]}
            = Ok VNone →
          client_list _cti_client "identity"
            {[ "search" := VStr name; "first" := VInt 1 ]} = Ok (VDict d :: rest) →
          tool name limit
          = ([sector_read_call name; sector_search_call name], Raise (KeyError "id")))).
Proof.
  intros Hd. split; [|split].
  - intros etype ttype tool Hin Hread.
    rewrite (forward_tool_is_related_of _ _ _ _ Hin), related_of_run, Hread.
    cbn [is_none mbind result_bind py_getitem]. by rewrite Hd.
  - intros Hread.
    unfold get_latest_reports_mentioning_threat_actor, _find_entity_by_name.
    rewrite (M_bind_read_ok _ _ _ _ _ Hread). cbn [is_none].
    assert (Hid : py_getitem (VDict d) "id" = Raise (KeyError "id")).
    { simpl. by rewrite Hd. }
    by rewrite (M_bind_lift_raise _ _ _ Hid).
  - intros from_type tool Hin.
    rewrite (sector_tool_is_targeting_sector _ _ _ Hin). split.
    + intros Hread.
      rewrite (targeting_sector_exact _ _ _ _ _ Hread eq_refl).
      by rewrite (sector_traversal_without_id _ _ _ _ Hd).
    + intros rest Hread Hlist.
      rewrite (targeting_sector_fallback _ _ _ _ _ _ Hread Hlist).
      by rewrite (sector_traversal_without_id _ _ _ _ Hd).
Qed.

Lemma found_without_id_raises_witness :
  get_malwares_of_intrusion_set ex_catalog "NoId"
  = ([Call "intrusion_set" Read {[ "filters" := name_filters "NoId" ]}],
     Raise (KeyError "id")).
Proof.
  assert (Hd : ({[ "name" := VStr "NoId" ]} : gmap string pyval) !! "id" = None)
    by reflexivity.
  apply (proj1 (found_without_id_raises ex_repr elements ex_catalog "NoId" 10 _ Hd)
           "intrusion_set" "Malware" _ (list_elem_of_here _ _) eq_refl).
Defined.



Lemma py_slice_to_length {A} (n : Z) (xs : list A) :
  Z.of_nat (length (py_slice_to n xs))
  = (if (0 <=? n)%Z then Z.min n (Z.of_nat (length xs))
     else Z.max 0 (Z.of_nat (length xs) + n))%Z.
Proof.
  unfold py_slice_to. destruct (0 <=? n)%Z eqn:Hn; rewrite length_take; lia.
Qed.

Lemma py_slice_to_prefix {A} (n : Z) (xs : list A) : py_slice_to n xs `prefix_of` xs.
Proof. destruct (py_slice_to_take n xs) as [k ->]. apply prefix_take. Qed.

(** X11.  For every integer limit L, negative ones included, a sector tool
    whose sector is resolved returns a prefix of the projection of the n
    relationships, in the order of the client: the first min(L, n) elements
    when L is not negative, and all but the last -L elements (none when
    -L exceeds n) when it is. *)
Theorem sector_limit_any_integer (_cti_client : OpenCTIApiClient)
    (from_type : string) (tool : string → Z → M (list pyval))
    (name : string) (limit : Z) (sector id : pyval) (rels : list pyval) :
  (from_type, tool) ∈ sector_tools _cti_client →
  (client_read _cti_client "identity" {[ "filters" := name_filters name ]} = Ok sector
     ∧ is_none sector = false)
  ∨ (client_read _cti_client "identity" {[ "filters" := name_filters name ]} = Ok VNone
     ∧ ∃ rest, client_list _cti_client "identity"
                 {[ "search" := VStr name; "first" := VInt 1 ]} = Ok (sector :: rest)) →
  py_getitem sector "id" = Ok id →
  client_list _cti_client "stix_core_relationship"
    {[ "toId" := id; "fromTypes" := VList [VStr from_type] ]} = Ok rels →
  forallb (rel_ok "from") rels = true →
  ∃ out, outcome (tool name limit) = Ok out
         ∧ out `prefix_of` (endpoint_record ∘ endpoint "from" <$> rels)
         ∧ Z.of_nat (length out)
           = (if (0 <=? limit)%Z then Z.min limit (Z.of_nat (length rels))
              else Z.max 0 (Z.of_nat (length rels) + limit))%Z.
Proof.
  intros Hin Hsector Hid Hlist Hok.
  rewrite (sector_tool_is_targeting_sector _ _ _ Hin).
  exists (py_slice_to limit (endpoint_record ∘ endpoint "from" <$> rels)).
  split; [|split].
  - destruct Hsector as [[Hread Hsome]|[Hread [rest Hsearch]]].
    + rewrite (targeting_sector_exact _ _ _ _ _ Hread Hsome).
      by rewrite (sector_traversal_ok _ _ _ _ _ _ Hid Hlist Hok).
    + rewrite (targeting_sector_fallback _ _ _ _ _ _ Hread Hsearch).
      by rewrite (sector_traversal_ok _ _ _ _ _ _ Hid Hlist Hok).
  - apply py_slice_to_prefix.
  - by rewrite py_slice_to_length, length_fmap.
Qed.

Lemma sector_limit_any_integer_witness :
  ∃ out, outcome (get_threat_actors_targeting_sector ex_client "Financial" (-5)) = Ok out
         ∧ out `prefix_of` (endpoint_record ∘ endpoint "from" <$> ex_actors)
         ∧ Z.of_nat (length out) = 0%Z.
Proof.
  apply (sector_limit_any_integer ex_client "Threat-Actor" _ "Financial" (-5)
           (VDict {[ "id" := VStr "77"; "name" := VStr "Financial" ]}) (VStr "77")
           ex_actors (list_elem_of_here _ _)).
  - left. split; reflexivity.
  - reflexivity.
  - reflexivity.
  - reflexivity.
Defined.

(** ** Reports that mention a threat actor: calls, bounds and order *)

Section ResolvedActorRun.
Context (container_repr : pyval → string).
Context (set_iter : gset string → list string).
Hypothesis set_iter_elements : ∀ s, set_iter s ≡ₚ elements s.
Context (_cti_client : OpenCTIApiClient).
Context (name : string) (limit : Z) (forward backward : list pyval).
Hypothesis resolved : resolved_actor _cti_client name forward backward.

(** The run of the tool, given the list that the sort returns. *)
Lemma resolved_path_run (sorted : list pyval) :
  py_sort_key_reverse published_key
    (filter (λ r, truthy r = true)
       (fetched _cti_client <$>
          set_iter (forward_report_ids forward ∪ backward_report_ids backward)))
  = Ok sorted →
  sorted ≡ₚ filter (λ r, truthy r = true)
              (fetched _cti_client <$>
                 set_iter (forward_report_ids forward ∪ backward_report_ids backward)) →
  ∃ id,
    py_getitem (fetched_actor _cti_client name) "id" = Ok id
    ∧ get_latest_reports_mentioning_threat_actor
        container_repr set_iter _cti_client name limit
      = (Call "threat_actor" Read {[ "filters" := name_filters name ]}
           :: Call "stix_core_relationship" ListAll
                {[ "fromId" := id; "toTypes" := VList [VStr "Report"] ]}
           :: Call "stix_core_relationship" ListAll
                {[ "toId" := id; "fromTypes" := VList [VStr "Report"] ]}
           :: ((λ i, Call "report" Read {[ "id" := VStr i ]}) <$>
                 set_iter (forward_report_ids forward ∪ backward_report_ids backward)),
         Ok (report_row container_repr <$> py_slice_to limit sorted)).
Proof.
  unfold forward_report_ids, backward_report_ids. rewrite <- list_to_set_app_L.
  intros Hsort Hperm.
  destruct (actor_found _ _ _ _ resolved)
    as (actor & id & Hread & Hsome & Hid & Hforward & Hbackward).
  exists id. split; [unfold fetched_actor; by rewrite Hread|].
  unfold get_latest_reports_mentioning_threat_actor, _find_entity_by_name.
  rewrite (M_bind_read_ok _ _ _ _ _ Hread). rewrite Hsome.
  rewrite (M_bind_lift_ok _ _ _ Hid).
  rewrite (M_bind_list_ok _ _ _ _ _ Hforward).
  rewrite (M_bind_lift_ok _ _ _ Hid).
  rewrite (M_bind_list_ok _ _ _ _ _ Hbackward).
  rewrite (M_bind_lift_ok _ _ _ (collect_ids_ok _ _ (forward_ok _ _ _ _ resolved))).
  rewrite (M_bind_lift_ok _ _ _ (collect_ids_ok _ _ (backward_ok _ _ _ _ resolved))).
  rewrite <- fmap_app.
  rewrite (M_bind_lift_ok _ _ _ (py_set_strings _)).
  rewrite (M_bind_ok _ _ _ _
             (mapM_read_ok _ _
                (visited_fetch_ok set_iter set_iter_elements _ name _ _ resolved))).
  rewrite (M_bind_lift_ok _ _ _ Hsort).
  cbn [outcome trace fst snd mret M_ret mbind M_bind lift].
  rewrite !app_nil_r. rewrite mapM_format_report_all; [done|].
  destruct (py_slice_to_take limit sorted) as [k ->].
  apply Forall_take. rewrite Hperm.
  eapply Forall_impl;
    [apply (truthy_fetched_ok set_iter set_iter_elements _ name _ _ resolved)|].
  by intros r [? _].
Qed.

Lemma resolved_path_calls :
  ∃ id,
    py_getitem (fetched_actor _cti_client name) "id" = Ok id
    ∧ trace (get_latest_reports_mentioning_threat_actor
               container_repr set_iter _cti_client name limit)
      = Call "threat_actor" Read {[ "filters" := name_filters name ]}
          :: Call "stix_core_relationship" ListAll
               {[ "fromId" := id; "toTypes" := VList [VStr "Report"] ]}
          :: Call "stix_core_relationship" ListAll
               {[ "toId" := id; "fromTypes" := VList [VStr "Report"] ]}
          :: ((λ i, Call "report" Read {[ "id" := VStr i ]}) <$>
                set_iter (forward_report_ids forward ∪ backward_report_ids backward)).
Proof.
  destruct (py_sort_published
              (filter (λ r, truthy r = true)
                 (fetched _cti_client <$>
                    set_iter (forward_report_ids forward
                              ∪ backward_report_ids backward))))
    as (sorted & Hsort & Hperm & _).
  { unfold forward_report_ids, backward_report_ids. rewrite <- list_to_set_app_L.
    eapply Forall_impl;
      [apply (truthy_fetched_ok set_iter set_iter_elements _ name _ _ resolved)|].
    by intros r [_ ?]. }
  destruct (resolved_path_run sorted Hsort Hperm) as (id & Hid & ->).
  by exists id.
Qed.
End ResolvedActorRun.

(** X12.  When the threat actor is found, the tool makes its calls in this
    order: the lookup, the listing of the relationships from the actor, the
    listing of the relationships to the actor, then one re-fetch for each
    distinct report identifier of the two directions, none of them twice.
    The limit plays no part: it cuts the result after every report has been
    re-fetched. *)
Theorem resolved_actor_calls (container_repr : pyval → string)
    (set_iter : gset string → list string) (_cti_client : OpenCTIApiClient)
    (name : string) (limit : Z) (forward backward : list pyval) :
  (∀ s, set_iter s ≡ₚ elements s) →
  resolved_actor _cti_client name forward backward →
  ∃ id refetched,
    py_getitem (fetched_actor _cti_client name) "id" = Ok id
    ∧ trace (get_latest_reports_mentioning_threat_actor
               container_repr set_iter _cti_client name limit)
      = Call "threat_actor" Read {[ "filters" := name_filters name ]}
          :: Call "stix_core_relationship" ListAll
               {[ "fromId" := id; "toTypes" := VList [VStr "Report"] ]}
          :: Call "stix_core_relationship" ListAll
               {[ "toId" := id; "fromTypes" := VList [VStr "Report"] ]}
          :: ((λ i, Call "report" Read {[ "id" := VStr i ]}) <$> refetched)
    ∧ NoDup refetched
    ∧ (∀ i, i ∈ refetched
            ↔ i ∈ forward_report_ids forward ∪ backward_report_ids backward)
    ∧ length (trace (get_latest_reports_mentioning_threat_actor
                       container_repr set_iter _cti_client name limit))
      = 3 + size (forward_report_ids forward ∪ backward_report_ids backward).
Proof.
  intros Hiter Hres.
  destruct (resolved_path_calls container_repr set_iter Hiter _cti_client name limit
              forward backward Hres) as (id & Hid & Htrace).
  exists id, (set_iter (forward_report_ids forward ∪ backward_report_ids backward)).
  split; [done|]. split; [done|]. split; [|split].
  - rewrite Hiter. apply NoDup_elements.
  - intros i. rewrite Hiter. apply elem_of_elements.
  - rewrite Htrace. cbn [length]. rewrite length_fmap, Hiter. reflexivity.
Qed.

Lemma resolved_actor_calls_witness :
  length (trace (get_latest_reports_mentioning_threat_actor
                   ex_repr elements ex_client "APT28" 0)) = 6
  ∧ outcome (get_latest_reports_mentioning_threat_actor
               ex_repr elements ex_client "APT28" 0) = Ok [].
Proof.
  split; [|reflexivity].
  destruct (resolved_actor_calls ex_repr elements ex_client "APT28" 0
              ex_forward ex_backward (λ s, reflexivity _) ex_resolved)
    as (id & refetched & _ & _ & _ & _ & Hlen).
  rewrite Hlen. reflexivity.
Defined.

(** X13.  When the threat actor is found, the tool returns at most one row
    for each distinct report identifier of the two directions, and at most
    [limit] rows when the limit is not negative; it returns no row when the
    two directions name no report. *)
Theorem resolved_actor_result_bounds (container_repr : pyval → string)
    (set_iter : gset string → list string) (_cti_client : OpenCTIApiClient)
    (name : string) (limit : Z) (forward backward : list pyval) :
  (∀ s, set_iter s ≡ₚ elements s) →
  resolved_actor _cti_client name forward backward →
  ∃ rows,
    outcome (get_latest_reports_mentioning_threat_actor
               container_repr set_iter _cti_client name limit) = Ok rows
    ∧ length rows ≤ size (forward_report_ids forward ∪ backward_report_ids backward)
    ∧ ((0 ≤ limit)%Z → (Z.of_nat (length rows) ≤ limit)%Z)
    ∧ (forward_report_ids forward ∪ backward_report_ids backward = ∅ → rows = []).
Proof.
  intros Hiter Hres.
  destruct (resolved_path container_repr set_iter Hiter _cti_client name limit
              forward backward Hres) as (sorted & Hout & Hperm & _).
  rewrite list_to_set_app_L in Hperm.
  fold (forward_report_ids forward) (backward_report_ids backward) in Hperm.
  set (ids := forward_report_ids forward ∪ backward_report_ids backward) in *.
  assert (Hlen : length sorted ≤ size ids).
  { rewrite Hperm. etrans; [apply length_filter|].
    rewrite length_fmap, Hiter. reflexivity. }
  exists (report_row container_repr <$> py_slice_to limit sorted).
  split; [done|]. rewrite length_fmap.
  pose proof (py_slice_to_length limit sorted) as Hslice.
  split; [|split].
  - destruct (py_slice_to_take limit sorted) as [k ->]. rewrite length_take. lia.
  - intros Hlimit. rewrite (proj2 (Z.leb_le 0 limit) Hlimit) in Hslice. lia.
  - intros Hempty. rewrite Hempty in Hlen.
    assert (length sorted = 0) as Hnil%nil_length_inv by (rewrite size_empty in Hlen; lia).
    rewrite Hnil. unfold py_slice_to. by destruct (0 <=? limit)%Z; rewrite take_nil.
Qed.

Lemma resolved_actor_result_bounds_witness :
  ∃ rows,
    outcome (get_latest_reports_mentioning_threat_actor
               ex_repr elements ex_client "APT28" 2) = Ok rows
    ∧ length rows ≤ 3 ∧ (Z.of_nat (length rows) ≤ 2)%Z.
Proof.
  destruct (resolved_actor_result_bounds ex_repr elements ex_client "APT28" 2
              ex_forward ex_backward (λ s, reflexivity _) ex_resolved)
    as (rows & Hout & Hsize & Hlimit & _).
  exists rows. split; [exact Hout|]. split; [exact Hsize|].
  apply Hlimit. lia.
Defined.

(** X14.  When the threat actor is found and the re-fetched reports with
    equal publication dates are equal, the result does not depend on the
    order in which the loop visits the set of identifiers. *)
Theorem result_independent_of_set_order (container_repr : pyval → string)
    (set_iter set_iter' : gset string → list string) (_cti_client : OpenCTIApiClient)
    (name : string) (limit : Z) (forward backward : list pyval) :
  (∀ s, set_iter s ≡ₚ elements s) →
  (∀ s, set_iter' s ≡ₚ elements s) →
  resolved_actor _cti_client name forward backward →
  (∀ i j,
     i ∈ forward_report_ids forward ∪ backward_report_ids backward →
     j ∈ forward_report_ids forward ∪ backward_report_ids backward →
     truthy (fetched _cti_client i) = true →
     truthy (fetched _cti_client j) = true →
     pubdate (fetched _cti_client i) = pubdate (fetched _cti_client j) →
     fetched _cti_client i = fetched _cti_client j) →
  outcome (get_latest_reports_mentioning_threat_actor
             container_repr set_iter _cti_client name limit)
  = outcome (get_latest_reports_mentioning_threat_actor
               container_repr set_iter' _cti_client name limit).
Proof.
  intros Hiter Hiter' Hres Hdates.
  destruct (resolved_path container_repr set_iter Hiter _cti_client name limit
              forward backward Hres) as (sorted & -> & Hperm & Hsorted).
  destruct (resolved_path container_repr set_iter' Hiter' _cti_client name limit
              forward backward Hres) as (sorted' & -> & Hperm' & Hsorted').
  rewrite list_to_set_app_L in Hperm, Hperm'.
  fold (forward_report_ids forward) (backward_report_ids backward) in Hperm, Hperm'.
  set (ids := forward_report_ids forward ∪ backward_report_ids backward) in *.
  assert (Hin : ∀ r, r ∈ sorted →
            ∃ i, i ∈ ids ∧ r = fetched _cti_client i ∧ truthy r = true).
  { intros r Hr. rewrite Hperm in Hr.
    apply list_elem_of_filter in Hr as [Ht Hr].
    apply list_elem_of_fmap in Hr as (i & -> & Hi).
    exists i. split; [|done]. rewrite Hiter in Hi. by apply elem_of_elements in Hi. }
  assert (Hsame : sorted ≡ₚ sorted').
  { rewrite Hperm, Hperm'. by rewrite Hiter, Hiter'. }
  f_equal. f_equal. f_equal.
  apply (StronglySorted_unique_strong newer_first); [|done|done|done].
  intros r1 r2 Hr1 Hr2 H12 H21.
  rewrite <- Hsame in Hr2.
  destruct (Hin r1 Hr1) as (i & Hi & -> & Ht1).
  destruct (Hin r2 Hr2) as (j & Hj & -> & Ht2).
  apply Hdates; [done..|].
  by apply String.leb_antisym.
Qed.

Lemma result_independent_of_set_order_witness :
  outcome (get_latest_reports_mentioning_threat_actor
             ex_repr elements ex_client "APT28" 2)
  = outcome (get_latest_reports_mentioning_threat_actor
               ex_repr (λ s, reverse (elements s)) ex_client "APT28" 2).
Proof.
  apply (result_independent_of_set_order ex_repr elements (λ s, reverse (elements s))
           ex_client "APT28" 2 ex_forward ex_backward
           (λ s, reflexivity _) (λ s, reverse_Permutation _) ex_resolved).
  intros i j Hi Hj _ _ Hdate.
  apply elem_of_elements in Hi, Hj. vm_compute in Hi, Hj.
  repeat (apply elem_of_cons in Hi as [->|Hi]);
    repeat (apply elem_of_cons in Hj as [->|Hj]);
    try (apply elem_of_nil in Hi; destruct Hi);
    try (apply elem_of_nil in Hj; destruct Hj);
    try reflexivity; vm_compute in Hdate; discriminate Hdate.
Defined.

(** ** The search of the sectors *)

Lemma sector_rows_total (identity : pyval) :
  sector_rows identity
  = if identity_ok identity
    then Ok (if sector_like identity then [sector_row identity] else [])
    else Raise AttributeError.
Proof.
  destruct identity as [| | | | |d]; try done.
  unfold sector_rows, identity_ok, sector_like, identity_class_of, sector_row.
  cbn [is_dict fields andb py_get mbind result_bind].
  destruct (default (VStr "") (d !! "identity_class")) as [| | |c| |]; try done.
  unfold is_sector_class. cbn [py_lower mbind result_bind is_str str_of truthy].
  destruct (py_in "sector" (lower c)); [done|].
  destruct (py_in "class" (lower c)); [done|].
  rewrite negb_involutive. cbn [orb]. by destruct (String.eqb c "").
Qed.

Lemma mjoin_filter_rows {A B} (p : A → bool) (g : A → B) (l : list A) :
  mjoin ((λ x, if p x then [g x] else []) <$> l) = g <$> filter (λ x, p x = true) l.
Proof.
  rewrite list_join_bind, list_fmap_bind.
  induction l as [|x l IH]; [done|].
  rewrite bind_cons, filter_cons, IH. cbn [compose id].
  destruct (p x) eqn:Hp.
  - by rewrite decide_True by done.
  - by rewrite decide_False by congruence.
Qed.

(** X15.  [search_sectors] makes one call, [list] on the identities with the
    search term as the only argument.  When every identity is a dictionary
    whose class is a string or missing, it returns the three-field rows, in
    the order of the client, of the identities whose class is missing, empty
    or contains "sector" or "class" in any letter case; an identity whose
    class is null, or any other value that is not a string, makes the whole
    call raise [AttributeError]. *)
Theorem search_sectors_spec (_cti_client : OpenCTIApiClient) (search_term : string) :
  search_sectors _cti_client search_term
  = ([Call "identity" ListAll {[ "search" := VStr search_term ]}],
     identities ← client_list _cti_client "identity" {[ "search" := VStr search_term ]};
     if forallb identity_ok identities
     then Ok (sector_row <$> filter (λ i, sector_like i = true) identities)
     else Raise AttributeError)
  ∧ (∀ d, d !! "identity_class" = None →
       identity_ok (VDict d) = true ∧ sector_like (VDict d) = true)
  ∧ (∀ d c, d !! "identity_class" = Some c → is_str c = false →
       identity_ok (VDict d) = false)
  ∧ (∀ identity, dom (fields (sector_row identity))
                 = ({[ "stix_id"; "name"; "description" ]} : gset string)).
Proof.
  split; [|split; [|split]].
  - unfold search_sectors. rewrite M_bind_list_any. f_equal.
    destruct (client_list _ _ _) as [identities|e]; [|done].
    cbn [mbind result_bind].
    rewrite (mapM_result_total _
               (λ i, if sector_like i then [sector_row i] else [])
               identity_ok AttributeError _ sector_rows_total).
    destruct (forallb identity_ok identities); [|done].
    cbn [fmap result_fmap]. by rewrite mjoin_filter_rows.
  - intros d Hd. unfold identity_ok, sector_like, identity_class_of.
    cbn [fields is_dict]. by rewrite Hd.
  - intros d c Hd Hc. unfold identity_ok, identity_class_of.
    cbn [fields is_dict]. by rewrite Hd.
  - intros identity. unfold sector_row. cbn [fields].
    rewrite !dom_insert_L, dom_singleton_L. set_solver.
Qed.

Lemma search_sectors_spec_witness :
  outcome (search_sectors ex_catalog "any")
  = Ok (sector_row <$> filter (λ i, sector_like i = true) ex_identities)
  ∧ length (filter (λ i, sector_like i = true) ex_identities) = 3
  ∧ outcome (search_sectors ex_catalog "null") = Raise AttributeError.
Proof.
  rewrite !(proj1 (search_sectors_spec ex_catalog _)).
  split; [reflexivity|]. split; reflexivity.
Defined.

(** ** The sort keeps the order of equal keys *)

Section SortingStability.
Context {A K : Type} `{EqDecision K}.
Context (lt : A → A → result bool) (key : A → K) (ok : A → Prop).
Hypothesis lt_key : ∀ x y, ok x → ok y → lt x y = Ok true → key x ≠ key y.

Lemma insert_asc_Forall (P : A → Prop) (x : A) (l s : list A) :
  insert_asc lt x l = Ok s → P x → Forall P l → Forall P s.
Proof.
  revert s. induction l as [|y l IH]; intros s; simpl.
  - intros [= <-] Hx _. by repeat constructor.
  - destruct (lt y x) as [[]|]; simpl; [|intros [= <-] Hx Hl; by constructor|done].
    destruct (insert_asc lt x l) as [s'|]; simpl; [|done].
    intros [= <-] Hx [Hy Hl]%Forall_cons. constructor; [done|]. by apply IH.
Qed.

Lemma sort_asc_Forall (P : A → Prop) (l s : list A) :
  sort_asc lt l = Ok s → Forall P l → Forall P s.
Proof.
  revert s. induction l as [|x l IH]; intros s; simpl.
  - by intros [= <-].
  - destruct (sort_asc lt l) as [s'|]; simpl; [|done].
    intros Hins [Hx Hl]%Forall_cons. eapply insert_asc_Forall; eauto.
Qed.

Lemma insert_asc_stable (x : A) (l s : list A) (k : K) :
  insert_asc lt x l = Ok s → ok x → Forall ok l →
  filter (λ a, key a = k) s = filter (λ a, key a = k) (x :: l).
Proof.
  revert s. induction l as [|y l IH]; intros s; simpl.
  - by intros [= <-].
  - destruct (lt y x) as [[]|] eqn:Hlt; simpl; [|by intros [= <-]|done].
    destruct (insert_asc lt x l) as [s'|]; simpl; [|done].
    intros [= <-] Hx [Hy Hl]%Forall_cons.
    specialize (IH s' eq_refl Hx Hl).
    pose proof (lt_key y x Hy Hx Hlt) as Hne.
    rewrite (filter_cons _ y s'), IH, !filter_cons.
    destruct (decide (key y = k)) as [Hyk|Hyk];
      destruct (decide (key x = k)) as [Hxk|Hxk]; try done.
    congruence.
Qed.

Lemma sort_asc_stable (l s : list A) (k : K) :
  sort_asc lt l = Ok s → Forall ok l →
  filter (λ a, key a = k) s = filter (λ a, key a = k) l.
Proof.
  revert s. induction l as [|x l IH]; intros s; simpl.
  - by intros [= <-].
  - destruct (sort_asc lt l) as [s'|] eqn:Hs'; simpl; [|done].
    intros Hins [Hx Hl]%Forall_cons.
    rewrite (insert_asc_stable x s' s k Hins Hx (sort_asc_Forall ok l s' Hs' Hl)).
    by rewrite !filter_cons, (IH s' eq_refl Hl).
Qed.

Lemma sort_desc_stable (l s : list A) (k : K) :
  sort_desc lt l = Ok s → Forall ok l →
  filter (λ a, key a = k) s = filter (λ a, key a = k) l.
Proof.
  unfold sort_desc. destruct (sort_asc lt (reverse l)) as [s'|] eqn:Hs'; [|done].
  intros [= <-] Hl.
  rewrite filter_reverse, (sort_asc_stable (reverse l) s' k Hs').
  - by rewrite filter_reverse, reverse_involutive.
  - by rewrite Forall_reverse.
Qed.
End SortingStability.

Lemma string_ltb_neq (s t : string) : String.ltb s t = true → s ≠ t.
Proof.
  unfold String.ltb. intros H ->.
  assert (Hrefl : String.compare t t = Eq).
  { pose proof (String.compare_antisym t t) as Hanti.
    destruct (String.compare t t); simpl in Hanti; congruence. }
  by rewrite Hrefl in H.
Qed.

Lemma py_sort_published_stable (l s : list pyval) (d : string) :
  Forall (λ r, dated_ok r = true) l →
  py_sort_key_reverse published_key l = Ok s →
  filter (λ r, pubdate r = d) s = filter (λ r, pubdate r = d) l.
Proof.
  intros Hl. unfold py_sort_key_reverse.
  rewrite (mapM_result_ok _ (λ r, VStr (pubdate r))).
  2:{ eapply Forall_impl; [exact Hl|]. intros r Hr. by apply published_key_ok. }
  cbn [mbind result_bind]. rewrite zip_fmap_diag.
  destruct (sort_desc _ _) as [pairs|] eqn:Hsort; [|done].
  intros [= <-].
  assert (Hkey : ∀ p q : pyval * pyval,
            p.1 = VStr (pubdate p.2) → q.1 = VStr (pubdate q.2) →
            py_lt p.1 q.1 = Ok true → pubdate p.2 ≠ pubdate q.2).
  { intros [k1 r1] [k2 r2]; simpl. intros -> ->. simpl.
    intros [= Hlt] Heq. rewrite Heq in Hlt. by apply string_ltb_neq in Hlt. }
  pose proof (sort_desc_stable (λ a b : pyval * pyval, py_lt a.1 b.1)
                (λ p, pubdate p.2) (λ p, p.1 = VStr (pubdate p.2)) Hkey
                _ pairs d Hsort) as Hstable.
  rewrite (filter_fmap_comm snd (λ r, pubdate r = d)).
  rewrite Hstable.
  - rewrite (filter_fmap_comm (λ x : pyval, (VStr (pubdate x), x))).
    rewrite <- list_fmap_compose. apply list_fmap_id.
  - apply Forall_fmap. by apply Forall_true.
Qed.

(** X16.  When the threat actor is found, the sort of the re-fetched reports
    is stable: the reports that share a publication date, and so the reports
    that have none, stay in the order in which the loop over the set of
    identifiers fetched them. *)
Theorem equal_dates_keep_fetch_order (container_repr : pyval → string)
    (set_iter : gset string → list string) (_cti_client : OpenCTIApiClient)
    (name : string) (limit : Z) (forward backward : list pyval) :
  (∀ s, set_iter s ≡ₚ elements s) →
  resolved_actor _cti_client name forward backward →
  ∃ sorted,
    outcome (get_latest_reports_mentioning_threat_actor
               container_repr set_iter _cti_client name limit)
    = Ok (report_row container_repr <$> py_slice_to limit sorted)
    ∧ ∀ date,
        filter (λ r, pubdate r = date) sorted
        = filter (λ r, pubdate r = date)
            (filter (λ r, truthy r = true)
               (fetched _cti_client <$>
                  set_iter (forward_report_ids forward ∪ backward_report_ids backward))).
Proof.
  intros Hiter Hres.
  assert (Hdated : Forall (λ r, dated_ok r = true)
             (filter (λ r, truthy r = true)
                (fetched _cti_client <$>
                   set_iter (forward_report_ids forward
                             ∪ backward_report_ids backward)))).
  { unfold forward_report_ids, backward_report_ids. rewrite <- list_to_set_app_L.
    eapply Forall_impl;
      [apply (truthy_fetched_ok set_iter Hiter _ name _ _ Hres)|].
    by intros r [_ ?]. }
  destruct (py_sort_published _ Hdated) as (sorted & Hsort & Hperm & _).
  destruct (resolved_path_run container_repr set_iter Hiter _cti_client name limit
              forward backward Hres sorted Hsort Hperm) as (id & _ & ->).
  exists sorted. split; [done|].
  intros date. by apply py_sort_published_stable.
Qed.

Lemma equal_dates_keep_fetch_order_witness :
  ∃ sorted,
    outcome (get_latest_reports_mentioning_threat_actor
               ex_repr elements ex_client "APT28" 10)
    = Ok (report_row ex_repr <$> py_slice_to 10 sorted)
    ∧ filter (λ r, pubdate r = "2024-12-01") sorted = [ex_r2].
Proof.
  destruct (equal_dates_keep_fetch_order ex_repr elements ex_client "APT28" 10
              ex_forward ex_backward (λ s, reflexivity _) ex_resolved)
    as (sorted & Hout & Hstable).
  exists sorted. split; [exact Hout|].
  rewrite Hstable. reflexivity.
Defined.

(** X17.  A sector tool formats every relationship of the listing before it
    applies the limit: one relationship that is not a relationship record
    makes the tool raise [AttributeError], whatever the limit, even when the
    limit would have left that relationship out. *)
Theorem sector_tool_formats_before_cutting (_cti_client : OpenCTIApiClient)
    (from_type : string) (tool : string → Z → M (list pyval))
    (name : string) (limit : Z) (sector id : pyval) (rels : list pyval) :
  (from_type, tool) ∈ sector_tools _cti_client →
  (client_read _cti_client "identity" {[ "filters" := name_filters name ]} = Ok sector
     ∧ is_none sector = false)
  ∨ (client_read _cti_client "identity" {[ "filters" := name_filters name ]} = Ok VNone
     ∧ ∃ rest, client_list _cti_client "identity"
                 {[ "search" := VStr name; "first" := VInt 1 ]} = Ok (sector :: rest)) →
  py_getitem sector "id" = Ok id →
  client_list _cti_client "stix_core_relationship"
    {[ "toId" := id; "fromTypes" := VList [VStr from_type] ]} = Ok rels →
  forallb (rel_ok "from") rels = false →
  outcome (tool name limit) = Raise AttributeError.
Proof.
  intros Hin Hsector Hid Hlist Hbad.
  rewrite (sector_tool_is_targeting_sector _ _ _ Hin).
  assert (Htrav : outcome (sector_traversal _cti_client from_type limit sector)
                  = Raise AttributeError).
  { unfold sector_traversal. rewrite (M_bind_lift_ok _ _ _ Hid).
    rewrite (get_reverse_related_entities_run _ id [from_type]).
    cbn [fmap M_fmap outcome snd list_fmap]. rewrite Hlist.
    cbn [mbind result_bind]. by rewrite Hbad. }
  destruct Hsector as [[Hread Hsome]|[Hread [rest Hsearch]]].
  - by rewrite (targeting_sector_exact _ _ _ _ _ Hread Hsome).
  - by rewrite (targeting_sector_fallback _ _ _ _ _ _ Hread Hsearch).
Qed.

Lemma sector_tool_formats_before_cutting_witness :
  outcome (get_threat_actors_targeting_sector ex_archive "Found" 1)
  = Raise AttributeError.
Proof.
  apply (sector_tool_formats_before_cutting ex_archive "Threat-Actor" _ "Found" 1
           (VDict {[ "id" := VStr "9" ]}) (VStr "9")
           [ex_rel "from" (ex_endpoint "a1" "threat-actor--1" "Actor1");
            ex_rel "from" VNone]
           (list_elem_of_here _ _)).
  - left. split; reflexivity.
  - reflexivity.
  - reflexivity.
  - reflexivity.
Defined.
